(** * Autotrade broker integration: adapter, transforms and portfolio bridge

    A shallow embedding of the TypeScript sources
      - brokers/autotrade/types.ts            (remote schema, transforms)
      - brokers/autotrade/AutotradeAdapter.ts (broker adapter; its text
        follows the README in brokers/autotrade/README.md)
      - services/portfolio/autotradeService.ts (portfolio bridge service)
    JavaScript numbers are IEEE-754 binary64 values and are modelled by
    Rocq's primitive floats; [async] methods are modelled by a promise
    monad over an explicit runtime (Tauri backend, clock, console).
    Counts ([positions.length], [total_positions]) are kept as [nat].
    [getOrders] and the constant placeholders of the adapter (margin, trade
    book, OHLCV, market depth, symbol search, subscriptions) are not
    embedded: no property below depends on them. *)

From Stdlib Require Import Floats ZArith String List Bool Arith Lia.
Import ListNotations.

Local Open Scope list_scope.
Local Open Scope string_scope.

(* ====================================================================== *)
(** ** JavaScript primitives used by the sources *)
(* ====================================================================== *)

Module Js.

(** A JavaScript [number]. *)
Definition number : Set := float.

(** [a > b] and [a < b] on numbers (both false when an operand is NaN). *)
Definition gt (a b : number) : bool := PrimFloat.ltb b a.
Definition lt (a b : number) : bool := PrimFloat.ltb a b.

(** [a == b] / [a === b] on numbers: NaN differs from itself, +0 equals -0. *)
Definition num_eq (a b : number) : bool := PrimFloat.eqb a b.

(** [Math.abs]. *)
Definition Math_abs (a : number) : number := PrimFloat.abs a.

(** [s || d] for a string [s]: the empty string is falsy. *)
Definition or_string (s d : string) : string :=
  if String.eqb s "" then d else s.

(** [o || d] for an optional string (absent, or present and maybe empty). *)
Definition or_optional (o : option string) (d : string) : string :=
  match o with
  | Some s => or_string s d
  | None => d
  end.

(** [Date.now()] and [new Date(ms).toISOString()], supplied by the runtime. *)
Record Clock : Set := {
  Date_now : number;
  Date_toISOString : number -> string
}.

End Js.

Import Js.

(* ====================================================================== *)
(** ** Unified broker types of brokers/stocks/types.ts *)
(* ====================================================================== *)

(** Modelled from the spec: the declaration of [Position] in
    brokers/stocks/types.ts is missing. The fields are those of the spec's
    data model (symbol, exchange, productType, quantity, buyQuantity,
    sellQuantity, buyValue, sellValue, averagePrice, lastPrice, pnl,
    pnlPercent, dayPnl, overnight), which are exactly the properties the
    transforms write. *)
Module Position.
Record t : Set := mk {
  symbol : string;
  exchange : string;
  productType : string;
  quantity : number;
  buyQuantity : number;
  sellQuantity : number;
  buyValue : number;
  sellValue : number;
  averagePrice : number;
  lastPrice : number;
  pnl : number;
  pnlPercent : number;
  dayPnl : number;
  overnight : bool
}.
End Position.

(** Modelled from the spec: the declaration of [Funds] is missing; the
    fields are the properties of the object [getFunds] returns. *)
Module Funds.
Record t : Set := mk {
  availableCash : number;
  usedMargin : number;
  availableMargin : number;
  totalBalance : number;
  currency : string
}.
End Funds.

(** Modelled from the spec: the declaration of [OrderResponse] is missing;
    the structured failure response of a write operation, with the
    properties the order operations return. [message] and [errorCode] are
    optional properties. *)
Module OrderResponse.
Record t : Set := mk {
  success : bool;
  message : option string;
  errorCode : option string
}.
End OrderResponse.

(** Modelled from the spec: the declaration of [BulkOperationResult] is
    missing; the fields are the properties of the object [cancelAllOrders]
    and [closeAllPositions] return. *)
Module BulkOperationResult.
Record t : Set := mk {
  success : bool;
  totalCount : number;
  successCount : number;
  failedCount : number;
  results : list OrderResponse.t
}.
End BulkOperationResult.

(* ====================================================================== *)
(** ** brokers/autotrade/types.ts *)
(* ====================================================================== *)

(** [AutotradePosition extends Position]. *)
Module AutotradePosition.
Record t : Set := mk {
  symbol : string;
  exchange : string;
  productType : string;
  quantity : number;
  buyQuantity : number;
  sellQuantity : number;
  buyValue : number;
  sellValue : number;
  averagePrice : number;
  lastPrice : number;
  pnl : number;
  pnlPercent : number;
  dayPnl : number;
  overnight : bool;
  instrument_id : string;
  market_value : number;
  cost_basis : number;
  day_change : number;
  day_change_percent : number;
  weight : number;
  instrument_type : option string
}.
End AutotradePosition.

Module AutotradePortfolioSummary.
Record t : Set := mk {
  account_id : string;
  timestamp : number;
  currency : string;
  cash_balance : number;
  total_market_value : number;
  total_cost_basis : number;
  total_unrealized_pnl : number;
  total_unrealized_pnl_percent : number;
  total_realized_pnl : number;
  total_positions : nat;
  net_liquidation_value : number;
  buying_power : option number;
  day_trading_buying_power : option number;
  positions : list AutotradePosition.t;
  last_updated : string
}.
End AutotradePortfolioSummary.

Module AutotradePortfolioHolding.
Record t : Set := mk {
  symbol : string;
  instrument_id : string;
  portfolio_id : string;
  quantity : number;
  avg_buy_price : number;
  current_price : number;
  market_value : number;
  cost_basis : number;
  unrealized_pnl : number;
  unrealized_pnl_percent : number;
  day_change : number;
  day_change_percent : number;
  weight : number;
  first_purchase_date : string;
  last_updated : string
}.
End AutotradePortfolioHolding.

(** [AutotradeApiResponse<T>]: the envelope of every bridge reply. *)
Module AutotradeApiResponse.
Record t (T : Type) : Type := mk {
  success : bool;
  data : option T;
  error : option string;
  errorCode : option string;
  timestamp : number;
  stale : option bool;
  age_seconds : option number
}.
Arguments mk {T}.
Arguments success {T}.
Arguments data {T}.
Arguments error {T}.
Arguments errorCode {T}.
Arguments timestamp {T}.
Arguments stale {T}.
Arguments age_seconds {T}.
End AutotradeApiResponse.

(** The object returned by [transformAutotradePortfolioToFincept]. *)
Module FinceptPortfolio.
Record t : Set := mk {
  holdings : list AutotradePortfolioHolding.t;
  totalMarketValue : number;
  totalCostBasis : number;
  totalUnrealizedPnl : number;
  totalUnrealizedPnlPercent : number;
  totalPositions : nat;
  lastUpdated : string
}.
End FinceptPortfolio.

Module Types.

Local Open Scope float_scope.

(** The sample literals are decimal; each denotes the nearest binary64
    value, as in JavaScript. *)
#[local] Set Warnings "-inexact-float".

Definition sampleAutotradePosition : AutotradePosition.t :=
  {| AutotradePosition.symbol := "TQQQ";
     AutotradePosition.instrument_id := "TQQQ.NASDAQ";
     AutotradePosition.exchange := "NASDAQ";
     AutotradePosition.productType := "CASH";
     AutotradePosition.quantity := 100;
     AutotradePosition.buyQuantity := 100;
     AutotradePosition.sellQuantity := 0;
     AutotradePosition.buyValue := 4550.0;
     AutotradePosition.sellValue := 0;
     AutotradePosition.averagePrice := 45.5;
     AutotradePosition.lastPrice := 46.25;
     AutotradePosition.pnl := 75.0;
     AutotradePosition.pnlPercent := 1.648;
     AutotradePosition.dayPnl := 12.5;
     AutotradePosition.overnight := true;
     AutotradePosition.market_value := 4625.0;
     AutotradePosition.cost_basis := 4550.0;
     AutotradePosition.day_change := 12.5;
     AutotradePosition.day_change_percent := 0.272;
     AutotradePosition.weight := 0.0231;
     AutotradePosition.instrument_type := Some "ETF" |}.

Definition sampleAutotradePortfolio (clk : Clock) : AutotradePortfolioSummary.t :=
  {| AutotradePortfolioSummary.account_id := "DU8489265";
     AutotradePortfolioSummary.timestamp := Date_now clk;
     AutotradePortfolioSummary.currency := "USD";
     AutotradePortfolioSummary.cash_balance := 50000.0;
     AutotradePortfolioSummary.total_market_value := 200500.0;
     AutotradePortfolioSummary.total_cost_basis := 180000.0;
     AutotradePortfolioSummary.total_unrealized_pnl := 20500.0;
     AutotradePortfolioSummary.total_unrealized_pnl_percent := 11.39;
     AutotradePortfolioSummary.total_realized_pnl := 15000.0;
     AutotradePortfolioSummary.total_positions := 8%nat;
     AutotradePortfolioSummary.net_liquidation_value := 250500.0;
     AutotradePortfolioSummary.buying_power := None;
     AutotradePortfolioSummary.day_trading_buying_power := None;
     AutotradePortfolioSummary.positions := [sampleAutotradePosition];
     AutotradePortfolioSummary.last_updated :=
       Date_toISOString clk (Date_now clk) |}.

(** [transformAutotradePositionToPosition] *)
Definition transformAutotradePositionToPosition
  (autotradePosition : AutotradePosition.t) : Position.t :=
  {| Position.symbol := AutotradePosition.symbol autotradePosition;
     Position.exchange := AutotradePosition.exchange autotradePosition;
     Position.productType :=
       or_string (AutotradePosition.productType autotradePosition) "CASH";
     Position.quantity := AutotradePosition.quantity autotradePosition;
     Position.buyQuantity :=
       if gt (AutotradePosition.quantity autotradePosition) 0
       then AutotradePosition.quantity autotradePosition else 0;
     Position.sellQuantity :=
       if lt (AutotradePosition.quantity autotradePosition) 0
       then Math_abs (AutotradePosition.quantity autotradePosition) else 0;
     Position.buyValue := AutotradePosition.buyValue autotradePosition;
     Position.sellValue := AutotradePosition.sellValue autotradePosition;
     Position.averagePrice := AutotradePosition.averagePrice autotradePosition;
     Position.lastPrice := AutotradePosition.lastPrice autotradePosition;
     Position.pnl := AutotradePosition.pnl autotradePosition;
     Position.pnlPercent := AutotradePosition.pnlPercent autotradePosition;
     Position.dayPnl := AutotradePosition.dayPnl autotradePosition;
     Position.overnight := true |}.

(** [transformAutotradePortfolioToFincept]; the clock is read for the
    [first_purchase_date] fallback (yesterday). *)
Definition transformAutotradePortfolioToFincept (clk : Clock)
  (portfolio : AutotradePortfolioSummary.t) (portfolioId : string)
  : FinceptPortfolio.t :=
  let holdings :=
    map (fun pos =>
      {| AutotradePortfolioHolding.symbol := AutotradePosition.symbol pos;
         AutotradePortfolioHolding.instrument_id :=
           AutotradePosition.instrument_id pos;
         AutotradePortfolioHolding.portfolio_id := portfolioId;
         AutotradePortfolioHolding.quantity := AutotradePosition.quantity pos;
         AutotradePortfolioHolding.avg_buy_price :=
           AutotradePosition.averagePrice pos;
         AutotradePortfolioHolding.current_price :=
           AutotradePosition.lastPrice pos;
         AutotradePortfolioHolding.market_value :=
           AutotradePosition.market_value pos;
         AutotradePortfolioHolding.cost_basis :=
           AutotradePosition.cost_basis pos;
         AutotradePortfolioHolding.unrealized_pnl := AutotradePosition.pnl pos;
         AutotradePortfolioHolding.unrealized_pnl_percent :=
           AutotradePosition.pnlPercent pos;
         AutotradePortfolioHolding.day_change := AutotradePosition.dayPnl pos;
         AutotradePortfolioHolding.day_change_percent := 0;
         AutotradePortfolioHolding.weight := AutotradePosition.weight pos;
         AutotradePortfolioHolding.first_purchase_date :=
           Date_toISOString clk (Date_now clk - 86400000);
         AutotradePortfolioHolding.last_updated :=
           AutotradePortfolioSummary.last_updated portfolio |})
      (AutotradePortfolioSummary.positions portfolio) in
  {| FinceptPortfolio.holdings := holdings;
     FinceptPortfolio.totalMarketValue :=
       AutotradePortfolioSummary.total_market_value portfolio;
     FinceptPortfolio.totalCostBasis :=
       AutotradePortfolioSummary.total_cost_basis portfolio;
     FinceptPortfolio.totalUnrealizedPnl :=
       AutotradePortfolioSummary.total_unrealized_pnl portfolio;
     FinceptPortfolio.totalUnrealizedPnlPercent :=
       AutotradePortfolioSummary.total_unrealized_pnl_percent portfolio;
     FinceptPortfolio.totalPositions :=
       AutotradePortfolioSummary.total_positions portfolio;
     FinceptPortfolio.lastUpdated :=
       AutotradePortfolioSummary.last_updated portfolio |}.

End Types.

(* ====================================================================== *)
(** ** The runtime: Tauri bridge, clock, console, promises *)
(* ====================================================================== *)

Module Runtime.

(** The native-bridge commands the adapter invokes, indexed by the payload
    type [T] of the [AutotradeApiResponse<T>] each one answers with. *)
Inductive Command : Type -> Type :=
| autotrade_get_positions : Command (list AutotradePosition.t)
| autotrade_get_account_summary : Command AutotradePortfolioSummary.t.

Definition command_name {T : Type} (command : Command T) : string :=
  match command with
  | autotrade_get_positions => "autotrade_get_positions"
  | autotrade_get_account_summary => "autotrade_get_account_summary"
  end.

(** How one [invoke] call settles: with an envelope, or rejected. *)
Inductive Invoked (T : Type) : Type :=
| Resolves (response : AutotradeApiResponse.t T)
| Throws (reason : string).
Arguments Resolves {T}.
Arguments Throws {T}.

(** The Rust side of the bridge: the reply to a command for an account,
    which may depend on how many invocations came before. *)
Definition Backend : Type :=
  forall T : Type, Command T -> string -> nat -> Invoked T.

(** Everything the TypeScript code reads or changes: the backend, the
    clock, the log of bridge invocations (command, accountId), the console,
    and the two private fields of the adapter instance. *)
Record World : Type := mkWorld {
  backend : Backend;
  clock : Clock;
  invocations : list (string * string);
  console : list string;
  _isConnected : bool;
  _accountId : string
}.

Definition invokeCount (w : World) : nat := length (invocations w).

(** A settled promise. Thrown values are represented by their message. *)
Inductive Settled (A : Type) : Type :=
| Fulfilled (value : A)
| Rejected (error : string).
Arguments Fulfilled {A}.
Arguments Rejected {A}.

(** An [async] computation: run in a world, it settles and leaves a world. *)
Definition Promise (A : Type) : Type := World -> Settled A * World.

Definition resolve {A : Type} (a : A) : Promise A :=
  fun w => (Fulfilled a, w).

Definition throw {A : Type} (error : string) : Promise A :=
  fun w => (Rejected error, w).

(** [const x = await p; k x] *)
Definition await {A B : Type} (p : Promise A) (k : A -> Promise B) : Promise B :=
  fun w =>
    match p w with
    | (Fulfilled a, w') => k a w'
    | (Rejected e, w') => (Rejected e, w')
    end.

(** [try { body } catch (error) { handler }] *)
Definition try_catch {A : Type} (body : Promise A) (handler : string -> Promise A)
  : Promise A :=
  fun w =>
    match body w with
    | (Fulfilled a, w') => (Fulfilled a, w')
    | (Rejected e, w') => handler e w'
    end.

(** [console.error(prefix, error)] *)
Definition console_error (prefix error : string) : Promise unit :=
  fun w =>
    (Fulfilled tt,
     mkWorld (backend w) (clock w) (invocations w)
       (console w ++ [(prefix ++ " " ++ error)%string])%list
       (_isConnected w) (_accountId w)).

(** [invoke<AutotradeApiResponse<T>>(command, { accountId })] of
    [@tauri-apps/api/core]: every call is logged. *)
Definition invoke {T : Type} (command : Command T) (accountId : string)
  : Promise (AutotradeApiResponse.t T) :=
  fun w =>
    let w' :=
      mkWorld (backend w) (clock w)
        (invocations w ++ [(command_name command, accountId)])%list
        (console w) (_isConnected w) (_accountId w) in
    match backend w T command accountId (invokeCount w) with
    | Resolves response => (Fulfilled response, w')
    | Throws reason => (Rejected reason, w')
    end.

Definition read_clock : Promise Clock :=
  fun w => (Fulfilled (clock w), w).

Definition this_accountId : Promise string :=
  fun w => (Fulfilled (_accountId w), w).

Definition this_isConnected : Promise bool :=
  fun w => (Fulfilled (_isConnected w), w).

Definition set_accountId (accountId : string) : Promise unit :=
  fun w =>
    (Fulfilled tt,
     mkWorld (backend w) (clock w) (invocations w) (console w)
       (_isConnected w) accountId).

Definition set_isConnected (b : bool) : Promise unit :=
  fun w =>
    (Fulfilled tt,
     mkWorld (backend w) (clock w) (invocations w) (console w)
       b (_accountId w)).

End Runtime.

Import Runtime.

Declare Scope promise_scope.
Delimit Scope promise_scope with promise.
Notation "x <- p ;; k" := (await p (fun x => k))
  (at level 61, p at next level, right associativity) : promise_scope.
Notation "p ;;; k" := (await p (fun _ => k))
  (at level 61, right associativity) : promise_scope.
Local Open Scope promise_scope.

(** Modelled from the spec: the declaration of the capability interface
    [IStockBrokerAdapter] is missing; this is the part of it the portfolio
    service calls. *)
Module IStockBrokerAdapter.
Record t : Type := mk {
  getFunds : Promise Funds.t;
  getPositions : Promise (list Position.t)
}.
End IStockBrokerAdapter.

(* ====================================================================== *)
(** ** brokers/autotrade/AutotradeAdapter.ts *)
(* ====================================================================== *)

(** Modelled from the spec: the declarations of [BrokerCredentials] and
    [AuthResponse] are missing; the fields are the properties [authenticate]
    reads and returns. *)
Module BrokerCredentials.
Record t : Set := mk {
  userId : option string
}.
End BrokerCredentials.

Module AuthResponse.
Record t : Set := mk {
  success : bool;
  accessToken : option string;
  userId : option string;
  expiresAt : option number;
  message : option string;
  errorCode : option string
}.
End AuthResponse.

(** Modelled from the spec: the declaration of [Holding] is missing; the
    fields are the properties of the rows the adapter's [getHoldings]
    builds. *)
Module Holding.
Record t : Set := mk {
  symbol : string;
  exchange : string;
  quantity : number;
  averagePrice : number;
  lastPrice : number;
  investedValue : number;
  currentValue : number;
  pnl : number;
  pnlPercent : number
}.
End Holding.

(** Modelled from the spec: the declaration of [Quote] is missing; the
    fields are the properties of the placeholder [getQuote] returns. *)
Module Quote.
Record t : Set := mk {
  symbol : string;
  exchange : string;
  lastPrice : number;
  open : number;
  high : number;
  low : number;
  close : number;
  previousClose : number;
  change : number;
  changePercent : number;
  volume : number;
  bid : number;
  bidQty : number;
  ask : number;
  askQty : number;
  timestamp : number
}.
End Quote.

(** An element of the [instruments] argument of [getQuotes]. *)
Module InstrumentRef.
Record t : Set := mk {
  symbol : string;
  exchange : string
}.
End InstrumentRef.

Module AutotradeAdapter.

Local Open Scope float_scope.

Definition AUTOTRADE_BROKER_ID : string := "autotrade".
Definition brokerId : string := AUTOTRADE_BROKER_ID.

(** [authenticate]: stores the account id and reports success; no bridge
    call is made. *)
Definition authenticate (credentials : BrokerCredentials.t)
  : Promise AuthResponse.t :=
  try_catch
    ((match BrokerCredentials.userId credentials with
      | Some userId =>
          if String.eqb userId "" then resolve tt else set_accountId userId
      | None => resolve tt
      end) ;;;
     set_isConnected true ;;;
     accountId <- this_accountId ;;
     clk <- read_clock ;;
     resolve
       {| AuthResponse.success := true;
          AuthResponse.accessToken := Some "autotrade-session-token";
          AuthResponse.userId := Some accountId;
          AuthResponse.expiresAt := Some (Date_now clk + 86400000);
          AuthResponse.message := None;
          AuthResponse.errorCode := None |})
    (fun error =>
       console_error ("[" ++ brokerId ++ "] Authentication failed:") error ;;;
       set_isConnected false ;;;
       resolve
         {| AuthResponse.success := false;
            AuthResponse.accessToken := None;
            AuthResponse.userId := None;
            AuthResponse.expiresAt := None;
            AuthResponse.message := Some error;
            AuthResponse.errorCode := Some "AUTH_FAILED" |}).

(** [logout] *)
Definition logout : Promise unit :=
  set_isConnected false ;;;
  set_accountId "".

(** [invokeAutotradeCommand<T>]: logs and rethrows a rejected invocation. *)
Definition invokeAutotradeCommand {T : Type} (command : Command T)
  (accountId : string) : Promise (AutotradeApiResponse.t T) :=
  try_catch
    (response <- invoke command accountId ;;
     resolve response)
    (fun error =>
       console_error
         ("[" ++ brokerId ++ "] Command " ++ command_name command ++ " failed:")
         error ;;;
       throw error).

(** [getFunds]: rethrows on any failure. *)
Definition getFunds : Promise Funds.t :=
  try_catch
    (accountId <- this_accountId ;;
     response <- invokeAutotradeCommand autotrade_get_account_summary accountId ;;
     match AutotradeApiResponse.success response,
           AutotradeApiResponse.data response with
     | true, Some portfolio =>
         resolve
           {| Funds.availableCash :=
                AutotradePortfolioSummary.cash_balance portfolio;
              Funds.usedMargin := 0;
              Funds.availableMargin := 0;
              Funds.totalBalance :=
                AutotradePortfolioSummary.net_liquidation_value portfolio;
              Funds.currency := AutotradePortfolioSummary.currency portfolio |}
     | _, _ =>
         throw (or_optional (AutotradeApiResponse.error response)
                  "Failed to fetch funds")
     end)
    (fun error =>
       console_error ("[" ++ brokerId ++ "] getFunds failed:") error ;;;
       throw error).

(** [placeOrder] *)
Definition placeOrder {OrderParams : Type} (_params : OrderParams)
  : Promise OrderResponse.t :=
  resolve
    {| OrderResponse.success := false;
       OrderResponse.message :=
         Some "Autotrade does not support manual order placement";
       OrderResponse.errorCode := Some "NOT_SUPPORTED" |}.

(** [modifyOrder] *)
Definition modifyOrder {ModifyOrderParams : Type} (_params : ModifyOrderParams)
  : Promise OrderResponse.t :=
  resolve
    {| OrderResponse.success := false;
       OrderResponse.message :=
         Some "Autotrade does not support manual order modification";
       OrderResponse.errorCode := Some "NOT_SUPPORTED" |}.

(** [cancelOrder] *)
Definition cancelOrder (_orderId : string) : Promise OrderResponse.t :=
  resolve
    {| OrderResponse.success := false;
       OrderResponse.message :=
         Some "Autotrade does not support manual order cancellation";
       OrderResponse.errorCode := Some "NOT_SUPPORTED" |}.

(** [cancelAllOrders] *)
Definition cancelAllOrders : Promise BulkOperationResult.t :=
  resolve
    {| BulkOperationResult.success := false;
       BulkOperationResult.totalCount := 0;
       BulkOperationResult.successCount := 0;
       BulkOperationResult.failedCount := 0;
       BulkOperationResult.results := [] |}.

(** [closeAllPositions] *)
Definition closeAllPositions : Promise BulkOperationResult.t :=
  resolve
    {| BulkOperationResult.success := false;
       BulkOperationResult.totalCount := 0;
       BulkOperationResult.successCount := 0;
       BulkOperationResult.failedCount := 0;
       BulkOperationResult.results := [] |}.

(** [placeSmartOrder] *)
Definition placeSmartOrder {SmartOrderParams : Type} (_params : SmartOrderParams)
  : Promise OrderResponse.t :=
  resolve
    {| OrderResponse.success := false;
       OrderResponse.message := Some "Autotrade does not support smart orders";
       OrderResponse.errorCode := Some "NOT_SUPPORTED" |}.

(** [transformPosition] (private) *)
Definition transformPosition (autotradePosition : AutotradePosition.t)
  : Position.t :=
  let quantity := AutotradePosition.quantity autotradePosition in
  let avgPrice := AutotradePosition.averagePrice autotradePosition in
  let currentPrice := AutotradePosition.lastPrice autotradePosition in
  {| Position.symbol := AutotradePosition.symbol autotradePosition;
     Position.exchange := AutotradePosition.exchange autotradePosition;
     Position.productType :=
       or_string (AutotradePosition.productType autotradePosition) "CASH";
     Position.quantity := quantity;
     Position.buyQuantity := if gt quantity 0 then quantity else 0;
     Position.sellQuantity := if lt quantity 0 then Math_abs quantity else 0;
     Position.buyValue := if gt quantity 0 then quantity * avgPrice else 0;
     Position.sellValue :=
       if lt quantity 0 then Math_abs quantity * avgPrice else 0;
     Position.averagePrice := avgPrice;
     Position.lastPrice := currentPrice;
     Position.pnl := AutotradePosition.pnl autotradePosition;
     Position.pnlPercent := AutotradePosition.pnlPercent autotradePosition;
     Position.dayPnl := AutotradePosition.dayPnl autotradePosition;
     Position.overnight := true |}.

(** [getPositions]: swallows every failure and answers the empty list. *)
Definition getPositions : Promise (list Position.t) :=
  try_catch
    (accountId <- this_accountId ;;
     response <- invokeAutotradeCommand autotrade_get_positions accountId ;;
     match AutotradeApiResponse.success response,
           AutotradeApiResponse.data response with
     | true, Some data => resolve (map transformPosition data)
     | _, _ => resolve []
     end)
    (fun error =>
       console_error ("[" ++ brokerId ++ "] getPositions failed:") error ;;;
       resolve []).

(** The adapter instance seen through the interface. *)
Definition asBrokerAdapter : IStockBrokerAdapter.t :=
  {| IStockBrokerAdapter.getFunds := getFunds;
     IStockBrokerAdapter.getPositions := getPositions |}.

(** The six write operations of the adapter, each with its argument. *)
Inductive WriteOperation : Type :=
| PlaceOrder {OrderParams : Type} (params : OrderParams)
| ModifyOrder {ModifyOrderParams : Type} (params : ModifyOrderParams)
| CancelOrder (orderId : string)
| PlaceSmartOrder {SmartOrderParams : Type} (params : SmartOrderParams)
| CancelAllOrders
| CloseAllPositions.

(** What a write operation answers: one of the two result shapes. *)
Inductive WriteResult : Set :=
| AnOrderResponse (r : OrderResponse.t)
| ABulkOperationResult (r : BulkOperationResult.t).

(** Reading [result.success] and [result.errorCode] off either shape; a
    [BulkOperationResult] object has no [errorCode] property. *)
Definition result_success (r : WriteResult) : bool :=
  match r with
  | AnOrderResponse r => OrderResponse.success r
  | ABulkOperationResult r => BulkOperationResult.success r
  end.

Definition result_errorCode (r : WriteResult) : option string :=
  match r with
  | AnOrderResponse r => OrderResponse.errorCode r
  | ABulkOperationResult _ => None
  end.

Definition call (op : WriteOperation) : Promise WriteResult :=
  match op with
  | PlaceOrder params => r <- placeOrder params ;; resolve (AnOrderResponse r)
  | ModifyOrder params => r <- modifyOrder params ;; resolve (AnOrderResponse r)
  | CancelOrder orderId => r <- cancelOrder orderId ;; resolve (AnOrderResponse r)
  | PlaceSmartOrder params =>
      r <- placeSmartOrder params ;; resolve (AnOrderResponse r)
  | CancelAllOrders => r <- cancelAllOrders ;; resolve (ABulkOperationResult r)
  | CloseAllPositions =>
      r <- closeAllPositions ;; resolve (ABulkOperationResult r)
  end.

(** [refreshSession] *)
Definition refreshSession : Promise AuthResponse.t :=
  isConnected <- this_isConnected ;;
  if negb isConnected
  then
    resolve
      {| AuthResponse.success := false;
         AuthResponse.accessToken := None;
         AuthResponse.userId := None;
         AuthResponse.expiresAt := None;
         AuthResponse.message :=
           Some "Not connected. Please authenticate first.";
         AuthResponse.errorCode := Some "NOT_CONNECTED" |}
  else
    resolve
      {| AuthResponse.success := true;
         AuthResponse.accessToken := Some "autotrade-session-token";
         AuthResponse.userId := None;
         AuthResponse.expiresAt := None;
         AuthResponse.message := None;
         AuthResponse.errorCode := None |}.

(** [connectWebSocket] and [disconnectWebSocket] *)
Definition connectWebSocket {WebSocketConfig : Type}
  (_config : option WebSocketConfig) : Promise unit :=
  set_isConnected true.

Definition disconnectWebSocket : Promise unit :=
  set_isConnected false.

(** [getHoldings] *)
Definition getHoldings : Promise (list Holding.t) :=
  try_catch
    (positions <- getPositions ;;
     resolve
       (map (fun pos =>
          {| Holding.symbol := Position.symbol pos;
             Holding.exchange := Position.exchange pos;
             Holding.quantity := Position.quantity pos;
             Holding.averagePrice := Position.averagePrice pos;
             Holding.lastPrice := Position.lastPrice pos;
             Holding.investedValue :=
               Math_abs (Position.quantity pos * Position.averagePrice pos);
             Holding.currentValue :=
               Math_abs (Position.quantity pos * Position.lastPrice pos);
             Holding.pnl := Position.pnl pos;
             Holding.pnlPercent := Position.pnlPercent pos |})
          positions))
    (fun error =>
       console_error ("[" ++ brokerId ++ "] getHoldings failed:") error ;;;
       resolve []).

(** [getOpenPosition]: [positions.find(...) || null] *)
Definition getOpenPosition (symbol exchange productType : string)
  : Promise (option Position.t) :=
  positions <- getPositions ;;
  resolve
    (find (fun p =>
       String.eqb (Position.symbol p) symbol &&
       String.eqb (Position.exchange p) exchange &&
       String.eqb (Position.productType p) productType)
       positions).

(** [getQuote]: a placeholder quote. *)
Definition getQuote (symbol exchange : string) : Promise Quote.t :=
  try_catch
    (clk <- read_clock ;;
     resolve
       {| Quote.symbol := symbol;
          Quote.exchange := exchange;
          Quote.lastPrice := 0;
          Quote.open := 0;
          Quote.high := 0;
          Quote.low := 0;
          Quote.close := 0;
          Quote.previousClose := 0;
          Quote.change := 0;
          Quote.changePercent := 0;
          Quote.volume := 0;
          Quote.bid := 0;
          Quote.bidQty := 0;
          Quote.ask := 0;
          Quote.askQty := 0;
          Quote.timestamp := Date_now clk |})
    (fun error =>
       console_error
         ("[" ++ brokerId ++ "] getQuote failed for " ++ symbol ++ ":") error ;;;
       throw error).

(** The [for ... of] loop of [getQuotes], with the [quotes] array built so
    far. *)
Fixpoint getQuotes_loop (instruments : list InstrumentRef.t)
  (quotes : list Quote.t) : Promise (list Quote.t) :=
  match instruments with
  | [] => resolve quotes
  | instrument :: rest =>
      let symbol := InstrumentRef.symbol instrument in
      let exchange := InstrumentRef.exchange instrument in
      quotes' <-
        try_catch
          (quote <- getQuote symbol exchange ;;
           resolve (quotes ++ [quote])%list)
          (fun error =>
             console_error
               ("[" ++ brokerId ++ "] Failed to get quote for " ++ symbol ++ ":")
               error ;;;
             resolve quotes) ;;
      getQuotes_loop rest quotes'
  end.

(** [getQuotes] *)
Definition getQuotes (instruments : list InstrumentRef.t)
  : Promise (list Quote.t) :=
  getQuotes_loop instruments [].

End AutotradeAdapter.

(* ====================================================================== *)
(** ** services/portfolio/autotradeService.ts *)
(* ====================================================================== *)

(** Modelled from the spec: the declarations of [HoldingWithQuote],
    [Portfolio] and [PortfolioSummary] in services/portfolio/portfolioService.ts
    are missing; the fields are the properties [getPortfolioSummary] writes. *)
Module HoldingWithQuote.
Record t : Set := mk {
  id : string;
  portfolio_id : string;
  symbol : string;
  quantity : number;
  avg_buy_price : number;
  current_price : number;
  market_value : number;
  cost_basis : number;
  unrealized_pnl : number;
  unrealized_pnl_percent : number;
  day_change : number;
  day_change_percent : number;
  weight : number;
  first_purchase_date : string;
  last_updated : string
}.
End HoldingWithQuote.

Module Portfolio.
Record t : Set := mk {
  id : string;
  name : string;
  owner : string;
  currency : string;
  description : string;
  created_at : string;
  updated_at : string
}.
End Portfolio.

Module PortfolioSummary.
Record t : Set := mk {
  portfolio : Portfolio.t;
  holdings : list HoldingWithQuote.t;
  total_market_value : number;
  total_cost_basis : number;
  total_unrealized_pnl : number;
  total_unrealized_pnl_percent : number;
  total_positions : nat;
  total_day_change : number;
  total_day_change_percent : number;
  last_updated : string
}.
End PortfolioSummary.

Module AutotradePortfolioService.

Local Open Scope float_scope.

(** The fields of the service object. *)
Record t : Type := mk {
  brokerAdapter : option IStockBrokerAdapter.t;
  defaultPortfolioId : string
}.

(** [new AutotradePortfolioService()] *)
Definition new : t :=
  {| brokerAdapter := None;
     defaultPortfolioId := "autotrade-portfolio" |}.

(** [setBrokerAdapter] *)
Definition setBrokerAdapter (this : t) (adapter : IStockBrokerAdapter.t) : t :=
  {| brokerAdapter := Some adapter;
     defaultPortfolioId := defaultPortfolioId this |}.

(** The three [reduce] sums of [fetchAutotradePortfolio]. *)
Definition totalMarketValue (positions : list Position.t) : number :=
  fold_left
    (fun sum p => sum + Math_abs (Position.quantity p * Position.lastPrice p))
    positions 0.

Definition totalCostBasis (positions : list Position.t) : number :=
  fold_left
    (fun sum p => sum + Math_abs (Position.quantity p * Position.averagePrice p))
    positions 0.

Definition totalUnrealizedPnl (positions : list Position.t) : number :=
  fold_left (fun sum p => sum + Position.pnl p) positions 0.

(** [fetchAutotradePortfolio] (private) *)
Definition fetchAutotradePortfolio (this : t) (accountId : string)
  : Promise AutotradePortfolioSummary.t :=
  match brokerAdapter this with
  | None => throw "Broker adapter not set"
  | Some adapter =>
    try_catch
      (funds <- IStockBrokerAdapter.getFunds adapter ;;
       positions <- IStockBrokerAdapter.getPositions adapter ;;
       let totalMarketValue := totalMarketValue positions in
       let totalCostBasis := totalCostBasis positions in
       let totalUnrealizedPnl := totalUnrealizedPnl positions in
       clk <- read_clock ;;
       resolve
         {| AutotradePortfolioSummary.account_id := accountId;
            AutotradePortfolioSummary.timestamp := Date_now clk;
            AutotradePortfolioSummary.currency := "USD";
            AutotradePortfolioSummary.cash_balance := Funds.availableCash funds;
            AutotradePortfolioSummary.total_market_value := totalMarketValue;
            AutotradePortfolioSummary.total_cost_basis := totalCostBasis;
            AutotradePortfolioSummary.total_unrealized_pnl := totalUnrealizedPnl;
            AutotradePortfolioSummary.total_unrealized_pnl_percent :=
              if gt totalCostBasis 0
              then (totalUnrealizedPnl / totalCostBasis) * 100
              else 0;
            AutotradePortfolioSummary.total_realized_pnl := 0;
            AutotradePortfolioSummary.total_positions := length positions;
            AutotradePortfolioSummary.net_liquidation_value :=
              totalMarketValue + Funds.availableCash funds;
            AutotradePortfolioSummary.buying_power := None;
            AutotradePortfolioSummary.day_trading_buying_power := None;
            AutotradePortfolioSummary.positions :=
              map (fun p =>
                {| AutotradePosition.symbol := Position.symbol p;
                   AutotradePosition.instrument_id :=
                     Position.symbol p ++ "." ++ Position.exchange p;
                   AutotradePosition.exchange := Position.exchange p;
                   AutotradePosition.productType := Position.productType p;
                   AutotradePosition.quantity := Position.quantity p;
                   AutotradePosition.buyQuantity := Position.buyQuantity p;
                   AutotradePosition.sellQuantity := Position.sellQuantity p;
                   AutotradePosition.buyValue := Position.buyValue p;
                   AutotradePosition.sellValue := Position.sellValue p;
                   AutotradePosition.averagePrice := Position.averagePrice p;
                   AutotradePosition.lastPrice := Position.lastPrice p;
                   AutotradePosition.pnl := Position.pnl p;
                   AutotradePosition.pnlPercent := Position.pnlPercent p;
                   AutotradePosition.dayPnl := Position.dayPnl p;
                   AutotradePosition.overnight := Position.overnight p || true;
                   AutotradePosition.market_value :=
                     Math_abs (Position.quantity p * Position.lastPrice p);
                   AutotradePosition.cost_basis :=
                     Math_abs (Position.quantity p * Position.averagePrice p);
                   AutotradePosition.day_change := Position.dayPnl p;
                   AutotradePosition.day_change_percent := 0;
                   AutotradePosition.weight := 0;
                   AutotradePosition.instrument_type := Some "ETF" |})
                positions;
            AutotradePortfolioSummary.last_updated :=
              Date_toISOString clk (Date_now clk) |})
      (fun error =>
         console_error
           "[AutotradePortfolioService] Failed to fetch portfolio:" error ;;;
         throw error)
  end.

(** [getPortfolioSummary] *)
Definition getPortfolioSummary (this : t) (accountId : string)
  : Promise PortfolioSummary.t :=
  match brokerAdapter this with
  | None => throw "Broker adapter not set. Call setBrokerAdapter() first."
  | Some _ =>
    autotradePortfolio <- fetchAutotradePortfolio this accountId ;;
    clk <- read_clock ;;
    let finceptPortfolio :=
      Types.transformAutotradePortfolioToFincept clk autotradePortfolio
        (defaultPortfolioId this) in
    let holdings :=
      map (fun h =>
        {| HoldingWithQuote.id := AutotradePortfolioHolding.instrument_id h;
           HoldingWithQuote.portfolio_id := defaultPortfolioId this;
           HoldingWithQuote.symbol := AutotradePortfolioHolding.symbol h;
           HoldingWithQuote.quantity := AutotradePortfolioHolding.quantity h;
           HoldingWithQuote.avg_buy_price :=
             AutotradePortfolioHolding.avg_buy_price h;
           HoldingWithQuote.current_price :=
             AutotradePortfolioHolding.current_price h;
           HoldingWithQuote.market_value :=
             AutotradePortfolioHolding.market_value h;
           HoldingWithQuote.cost_basis := AutotradePortfolioHolding.cost_basis h;
           HoldingWithQuote.unrealized_pnl :=
             AutotradePortfolioHolding.unrealized_pnl h;
           HoldingWithQuote.unrealized_pnl_percent :=
             AutotradePortfolioHolding.unrealized_pnl_percent h;
           HoldingWithQuote.day_change := AutotradePortfolioHolding.day_change h;
           HoldingWithQuote.day_change_percent :=
             AutotradePortfolioHolding.day_change_percent h;
           HoldingWithQuote.weight := AutotradePortfolioHolding.weight h;
           HoldingWithQuote.first_purchase_date :=
             AutotradePortfolioHolding.first_purchase_date h;
           HoldingWithQuote.last_updated :=
             AutotradePortfolioHolding.last_updated h |})
        (FinceptPortfolio.holdings finceptPortfolio) in
    let portfolio :=
      {| Portfolio.id := defaultPortfolioId this;
         Portfolio.name := "Autotrade Portfolio";
         Portfolio.owner := accountId;
         Portfolio.currency := "USD";
         Portfolio.description := "Autotrade automated trading portfolio";
         Portfolio.created_at :=
           AutotradePortfolioSummary.last_updated autotradePortfolio;
         Portfolio.updated_at :=
           AutotradePortfolioSummary.last_updated autotradePortfolio |} in
    resolve
      {| PortfolioSummary.portfolio := portfolio;
         PortfolioSummary.holdings := holdings;
         PortfolioSummary.total_market_value :=
           FinceptPortfolio.totalMarketValue finceptPortfolio;
         PortfolioSummary.total_cost_basis :=
           FinceptPortfolio.totalCostBasis finceptPortfolio;
         PortfolioSummary.total_unrealized_pnl :=
           FinceptPortfolio.totalUnrealizedPnl finceptPortfolio;
         PortfolioSummary.total_unrealized_pnl_percent :=
           FinceptPortfolio.totalUnrealizedPnlPercent finceptPortfolio;
         PortfolioSummary.total_positions :=
           FinceptPortfolio.totalPositions finceptPortfolio;
         PortfolioSummary.total_day_change := 0;
         PortfolioSummary.total_day_change_percent := 0;
         PortfolioSummary.last_updated :=
           FinceptPortfolio.lastUpdated finceptPortfolio |}
  end.

(** [getHoldings] *)
Definition getHoldings (this : t) (accountId : string)
  : Promise (list HoldingWithQuote.t) :=
  summary <- getPortfolioSummary this accountId ;;
  resolve (PortfolioSummary.holdings summary).

End AutotradePortfolioService.

(* ====================================================================== *)
(** ** Concrete runtimes used to exercise the code *)
(* ====================================================================== *)

Module Scenario.

Local Open Scope float_scope.

Definition clk : Clock :=
  {| Date_now := 1762128000000;
     Date_toISOString := fun _ => "2025-11-03T00:00:00.000Z" |}.

Definition envelope {T : Type} (success : bool) (data : option T)
  (error : option string) : AutotradeApiResponse.t T :=
  {| AutotradeApiResponse.success := success;
     AutotradeApiResponse.data := data;
     AutotradeApiResponse.error := error;
     AutotradeApiResponse.errorCode := None;
     AutotradeApiResponse.timestamp := Date_now clk;
     AutotradeApiResponse.stale := None;
     AutotradeApiResponse.age_seconds := None |}.

(** A short position of 100 units. *)
Definition shortPosition : AutotradePosition.t :=
  {| AutotradePosition.symbol := "SQQQ";
     AutotradePosition.instrument_id := "SQQQ.NASDAQ";
     AutotradePosition.exchange := "NASDAQ";
     AutotradePosition.productType := "";
     AutotradePosition.quantity := -100;
     AutotradePosition.buyQuantity := 0;
     AutotradePosition.sellQuantity := 100;
     AutotradePosition.buyValue := 0;
     AutotradePosition.sellValue := 1250;
     AutotradePosition.averagePrice := 12.5;
     AutotradePosition.lastPrice := 12.25;
     AutotradePosition.pnl := 25;
     AutotradePosition.pnlPercent := 2;
     AutotradePosition.dayPnl := 5;
     AutotradePosition.overnight := false;
     AutotradePosition.market_value := 1225;
     AutotradePosition.cost_basis := 1250;
     AutotradePosition.day_change := 5;
     AutotradePosition.day_change_percent := 0.5;
     AutotradePosition.weight := 0.25;
     AutotradePosition.instrument_type := None |}.

(** A closed-out position (quantity zero). *)
Definition flatPosition : AutotradePosition.t :=
  {| AutotradePosition.symbol := "QQQ";
     AutotradePosition.instrument_id := "QQQ.NASDAQ";
     AutotradePosition.exchange := "NASDAQ";
     AutotradePosition.productType := "CASH";
     AutotradePosition.quantity := 0;
     AutotradePosition.buyQuantity := 0;
     AutotradePosition.sellQuantity := 0;
     AutotradePosition.buyValue := 0;
     AutotradePosition.sellValue := 0;
     AutotradePosition.averagePrice := 0;
     AutotradePosition.lastPrice := 400;
     AutotradePosition.pnl := 0;
     AutotradePosition.pnlPercent := 0;
     AutotradePosition.dayPnl := 0;
     AutotradePosition.overnight := false;
     AutotradePosition.market_value := 0;
     AutotradePosition.cost_basis := 0;
     AutotradePosition.day_change := 0;
     AutotradePosition.day_change_percent := 0;
     AutotradePosition.weight := 0;
     AutotradePosition.instrument_type := None |}.

(** A backend answering every command with the sample data of types.ts. *)
Definition sampleBackend : Backend :=
  fun T command _ _ =>
    match command in Command T return Invoked T with
    | autotrade_get_positions =>
        Resolves (envelope true (Some [Types.sampleAutotradePosition]) None)
    | autotrade_get_account_summary =>
        Resolves (envelope true (Some (Types.sampleAutotradePortfolio clk)) None)
    end.

(** A backend holding cash and one closed-out position. *)
Definition flatBackend : Backend :=
  fun T command _ _ =>
    match command in Command T return Invoked T with
    | autotrade_get_positions =>
        Resolves (envelope true (Some [flatPosition]) None)
    | autotrade_get_account_summary =>
        Resolves (envelope true (Some (Types.sampleAutotradePortfolio clk)) None)
    end.

(** A backend answering [success:false] envelopes. *)
Definition failingBackend : Backend :=
  fun T _ _ _ => Resolves (envelope false None (Some "service unavailable")).

(** A backend whose success envelopes carry no [data]. *)
Definition emptyBackend : Backend :=
  fun T _ _ _ => Resolves (envelope true None None).

(** A backend that cannot be reached: every invocation rejects. *)
Definition unreachableBackend : Backend :=
  fun T _ _ _ => Throws "connection refused".

(** The account the scenarios are run for. *)
Definition account : string := "DU8489265".

(** A backend reporting a long and a short position. *)
Definition mixedBackend : Backend :=
  fun T command _ _ =>
    match command in Command T return Invoked T with
    | autotrade_get_positions =>
        Resolves
          (envelope true
             (Some [Types.sampleAutotradePosition; shortPosition]) None)
    | autotrade_get_account_summary =>
        Resolves (envelope true (Some (Types.sampleAutotradePortfolio clk)) None)
    end.

(** A backend that knows the account but cannot list its positions. *)
Definition noPositionsBackend : Backend :=
  fun T command _ _ =>
    match command in Command T return Invoked T with
    | autotrade_get_positions => Throws "positions unavailable"
    | autotrade_get_account_summary =>
        Resolves (envelope true (Some (Types.sampleAutotradePortfolio clk)) None)
    end.

(** A freshly constructed adapter in front of backend [b]. *)
Definition fresh (b : Backend) : World :=
  mkWorld b clk [] [] false "".

(** The same after [authenticate({ userId: 'DU8489265' })]. *)
Definition authenticated (b : Backend) : World :=
  snd (AutotradeAdapter.authenticate
         {| BrokerCredentials.userId := Some account |} (fresh b)).

(** The portfolio service with the Autotrade adapter injected. *)
Definition service : AutotradePortfolioService.t :=
  AutotradePortfolioService.setBrokerAdapter AutotradePortfolioService.new
    AutotradeAdapter.asBrokerAdapter.

End Scenario.

(* ====================================================================== *)
(** ** Vocabulary of the properties *)
(* ====================================================================== *)

Module Spec.

(** The reply the bridge gives when the adapter, in world [w], next invokes
    [command] for its own account. *)
Definition next_reply {T : Type} (w : World) (command : Command T) : Invoked T :=
  backend w T command (_accountId w) (invokeCount w).

(** A reply that is a failure of the bridge call: the invocation rejects,
    or the envelope has [success == false] or carries no [data]. *)
Definition failed {T : Type} (reply : Invoked T) : Prop :=
  match reply with
  | Throws _ => True
  | Resolves response =>
      AutotradeApiResponse.success response = false \/
      AutotradeApiResponse.data response = None
  end.

(** Write operation [op], called in world [w], answers [success == false]
    with a non-empty [errorCode] and invokes nothing on the bridge. *)
Definition rejected_with_errorCode (op : AutotradeAdapter.WriteOperation)
  (w : World) : Prop :=
  exists r w',
    AutotradeAdapter.call op w = (Fulfilled r, w') /\
    AutotradeAdapter.result_success r = false /\
    (exists code, AutotradeAdapter.result_errorCode r = Some code /\ code <> "") /\
    invokeCount w' = invokeCount w.

End Spec.

(* ====================================================================== *)
(** ** Facts about JavaScript number comparison and subtraction *)
(* ====================================================================== *)

Module NumberFacts.

Local Open Scope float_scope.

(** Case analysis on the IEEE-754 class of a number after moving every
    primitive operation to its specification. *)
Ltac by_float_class q :=
  unfold gt, lt, num_eq, Math_abs in *;
  repeat match goal with
         | H : context [PrimFloat.ltb _ _] |- _ => rewrite FloatAxioms.ltb_spec in H
         | H : context [PrimFloat.eqb _ _] |- _ => rewrite FloatAxioms.eqb_spec in H
         end;
  rewrite ?FloatAxioms.ltb_spec, ?FloatAxioms.eqb_spec,
    ?FloatAxioms.sub_spec, ?FloatAxioms.abs_spec;
  destruct (Prim2SF q) as [[|]|[|]| |[|] m e]; simpl in *;
  try discriminate; try reflexivity.

Lemma gt_zero_not_lt (q : number) : gt q 0 = true -> lt q 0 = false.
Proof. intros H. by_float_class q. Qed.

Lemma lt_zero_not_gt (q : number) : lt q 0 = true -> gt q 0 = false.
Proof. intros H. by_float_class q. Qed.

Lemma eq_zero_not_gt (q : number) : num_eq q 0 = true -> gt q 0 = false.
Proof. intros H. by_float_class q. Qed.

Lemma eq_zero_not_lt (q : number) : num_eq q 0 = true -> lt q 0 = false.
Proof. intros H. by_float_class q. Qed.

(** [q - 0 == q] for positive [q]. *)
Lemma sub_zero_of_positive (q : number) : gt q 0 = true -> num_eq (q - 0) q = true.
Proof.
  intros H. by_float_class q.
  unfold SFeqb, SFcompare.
  rewrite Z.compare_refl, Pos.compare_cont_refl. reflexivity.
Qed.

(** [0 - Math.abs(q) == q] for negative [q]. *)
Lemma zero_sub_abs_of_negative (q : number) :
  lt q 0 = true -> num_eq (0 - Math_abs q) q = true.
Proof.
  intros H. by_float_class q.
  unfold SFeqb, SFcompare.
  rewrite Z.compare_refl, Pos.compare_cont_refl. reflexivity.
Qed.

(** [0 - 0 == q] when [q == 0] (either zero). *)
Lemma zero_sub_zero_of_zero (q : number) : num_eq q 0 = true -> num_eq (0 - 0) q = true.
Proof. intros H. by_float_class q. Qed.

End NumberFacts.

(* ====================================================================== *)
(** ** The transforms of types.ts and of the adapter *)
(* ====================================================================== *)

Section PositionTransforms.

Local Open Scope float_scope.

Import NumberFacts.

(** C4. The position transform (the exported
    [transformAutotradePositionToPosition] and the adapter's private
    [transformPosition] alike) splits the signed quantity by side: for
    [quantity > 0] it gives [buyQuantity = quantity] and [sellQuantity = 0];
    for [quantity < 0] it gives [buyQuantity = 0] and
    [sellQuantity = Math.abs(quantity)]; for [quantity == 0] both are 0; and
    in each of the three cases [buyQuantity - sellQuantity == quantity]. *)
Theorem transform_splits_quantity :
  forall transform : AutotradePosition.t -> Position.t,
    transform = Types.transformAutotradePositionToPosition \/
    transform = AutotradeAdapter.transformPosition ->
    forall p : AutotradePosition.t,
      let q := AutotradePosition.quantity p in
      let buy := Position.buyQuantity (transform p) in
      let sell := Position.sellQuantity (transform p) in
      (gt q 0 = true ->
       buy = q /\ sell = 0 /\ num_eq (buy - sell) q = true) /\
      (lt q 0 = true ->
       buy = 0 /\ sell = Math_abs q /\ num_eq (buy - sell) q = true) /\
      (num_eq q 0 = true ->
       buy = 0 /\ sell = 0 /\ num_eq (buy - sell) q = true).
Proof.
  intros transform Htransform p q buy sell.
  assert (Hbuy : buy = if gt q 0 then q else 0)
    by (destruct Htransform; subst; reflexivity).
  assert (Hsell : sell = if lt q 0 then Math_abs q else 0)
    by (destruct Htransform; subst; reflexivity).
  rewrite Hbuy, Hsell. clear Hbuy Hsell buy sell.
  repeat split.
  - rewrite H. reflexivity.
  - rewrite (gt_zero_not_lt q H). reflexivity.
  - rewrite H, (gt_zero_not_lt q H). apply sub_zero_of_positive, H.
  - rewrite (lt_zero_not_gt q H). reflexivity.
  - rewrite H. reflexivity.
  - rewrite H, (lt_zero_not_gt q H). apply zero_sub_abs_of_negative, H.
  - rewrite (eq_zero_not_gt q H). reflexivity.
  - rewrite (eq_zero_not_lt q H). reflexivity.
  - rewrite (eq_zero_not_gt q H), (eq_zero_not_lt q H).
    apply zero_sub_zero_of_zero, H.
Qed.

Lemma transform_splits_quantity_witness :
  (let r := AutotradeAdapter.transformPosition Types.sampleAutotradePosition in
   Position.buyQuantity r = 100 /\ Position.sellQuantity r = 0 /\
   num_eq (Position.buyQuantity r - Position.sellQuantity r) 100 = true) /\
  (let r := Types.transformAutotradePositionToPosition Scenario.shortPosition in
   Position.buyQuantity r = 0 /\ Position.sellQuantity r = 100 /\
   num_eq (Position.buyQuantity r - Position.sellQuantity r) (-100) = true) /\
  (let r := Types.transformAutotradePositionToPosition Scenario.flatPosition in
   Position.buyQuantity r = 0 /\ Position.sellQuantity r = 0 /\
   num_eq (Position.buyQuantity r - Position.sellQuantity r) 0 = true).
Proof.
  split; [| split].
  - apply (transform_splits_quantity AutotradeAdapter.transformPosition
             (or_intror Logic.eq_refl) Types.sampleAutotradePosition).
    reflexivity.
  - apply (transform_splits_quantity Types.transformAutotradePositionToPosition
             (or_introl Logic.eq_refl) Scenario.shortPosition).
    reflexivity.
  - apply (transform_splits_quantity Types.transformAutotradePositionToPosition
             (or_introl Logic.eq_refl) Scenario.flatPosition).
    reflexivity.
Defined.

(** C5. For every input position, whatever its own [overnight] flag is,
    the transformed position has [overnight = true]; this holds for the
    exported transform and for the adapter's private one. *)
Theorem transform_forces_overnight :
  forall p : AutotradePosition.t,
    Position.overnight (Types.transformAutotradePositionToPosition p) = true /\
    Position.overnight (AutotradeAdapter.transformPosition p) = true.
Proof. intros p. split; reflexivity. Qed.

End PositionTransforms.

Section PortfolioTransform.

Variable clk : Clock.
Variable portfolio : AutotradePortfolioSummary.t.
Variable portfolioId : string.

Let positions := AutotradePortfolioSummary.positions portfolio.
Let holdings :=
  FinceptPortfolio.holdings
    (Types.transformAutotradePortfolioToFincept clk portfolio portfolioId).

(** The i-th holding row, if any, is built from the i-th position. *)
Lemma holding_of_position (i : nat) :
  match nth_error positions i, nth_error holdings i with
  | Some pos, Some h =>
      AutotradePortfolioHolding.symbol h = AutotradePosition.symbol pos /\
      AutotradePortfolioHolding.quantity h = AutotradePosition.quantity pos /\
      AutotradePortfolioHolding.avg_buy_price h =
        AutotradePosition.averagePrice pos /\
      AutotradePortfolioHolding.weight h = AutotradePosition.weight pos /\
      AutotradePortfolioHolding.day_change_percent h = 0%float
  | None, None => True
  | _, _ => False
  end.
Proof.
  subst holdings positions. simpl.
  generalize (AutotradePortfolioSummary.positions portfolio) as l.
  induction i as [|i IH]; intros [|pos l]; simpl; auto.
  apply IH.
Qed.

(** C7. A portfolio summary of N positions is transformed into exactly N
    holding rows, and at every index i the holding's [symbol], [quantity]
    and [avg_buy_price] are the position's [symbol], [quantity] and
    [averagePrice]. *)
Theorem portfolio_transform_preserves_rows :
  length holdings = length positions /\
  forall i : nat,
    option_map AutotradePortfolioHolding.symbol (nth_error holdings i) =
      option_map AutotradePosition.symbol (nth_error positions i) /\
    option_map AutotradePortfolioHolding.quantity (nth_error holdings i) =
      option_map AutotradePosition.quantity (nth_error positions i) /\
    option_map AutotradePortfolioHolding.avg_buy_price (nth_error holdings i) =
      option_map AutotradePosition.averagePrice (nth_error positions i).
Proof.
  split.
  - subst holdings positions. simpl. apply length_map.
  - intros i. generalize (holding_of_position i).
    destruct (nth_error positions i) as [pos|], (nth_error holdings i) as [h|];
      simpl; try tauto.
    intros (Hs & Hq & Ha & _). rewrite Hs, Hq, Ha. auto.
Qed.

End PortfolioTransform.

(* ====================================================================== *)
(** ** The adapter *)
(* ====================================================================== *)

Section Adapter.

Import Spec.

(** Unfolds one adapter read operation down to the bridge reply. *)
Ltac run_adapter :=
  unfold AutotradeAdapter.getFunds, AutotradeAdapter.getPositions,
    AutotradeAdapter.invokeAutotradeCommand, try_catch, await, invoke,
    this_accountId, console_error, throw, resolve;
  cbn beta iota.

(** What a rejected invocation does to [getPositions] and [getFunds]. *)
Lemma getPositions_on_rejection (w : World) (reason : string) :
  next_reply w autotrade_get_positions = Throws reason ->
  exists w', AutotradeAdapter.getPositions w = (Fulfilled [], w') /\
             invokeCount w' = S (invokeCount w).
Proof.
  unfold next_reply. intros H. run_adapter. rewrite H.
  eexists. split; [reflexivity |].
  unfold invokeCount. simpl. rewrite length_app, Nat.add_comm. reflexivity.
Qed.

Lemma getFunds_on_rejection (w : World) (reason : string) :
  next_reply w autotrade_get_account_summary = Throws reason ->
  exists w', AutotradeAdapter.getFunds w = (Rejected reason, w').
Proof.
  unfold next_reply. intros H. run_adapter. rewrite H.
  eexists. reflexivity.
Qed.

(** What an envelope does to [getPositions]. *)
Lemma getPositions_on_envelope (w : World)
  (response : AutotradeApiResponse.t (list AutotradePosition.t)) :
  next_reply w autotrade_get_positions = Resolves response ->
  exists w',
    AutotradeAdapter.getPositions w =
      (Fulfilled
         (match AutotradeApiResponse.success response,
                AutotradeApiResponse.data response with
          | true, Some data => map AutotradeAdapter.transformPosition data
          | _, _ => []
          end), w') /\
    invokeCount w' = S (invokeCount w).
Proof.
  unfold next_reply. intros H. run_adapter. rewrite H.
  destruct (AutotradeApiResponse.success response),
    (AutotradeApiResponse.data response);
    (eexists; split; [reflexivity |]);
    unfold invokeCount; simpl; rewrite length_app, Nat.add_comm; reflexivity.
Qed.

(** C1 as stated fails: [cancelAllOrders] answers a [BulkOperationResult],
    which carries no [errorCode]. *)
Lemma cancelAllOrders_has_no_errorCode :
  ~ rejected_with_errorCode AutotradeAdapter.CancelAllOrders
      (Scenario.authenticated Scenario.sampleBackend).
Proof.
  intros (r & w' & Hcall & _ & (code & Hcode & _) & _).
  inversion Hcall; subst r. discriminate Hcode.
Qed.

(** C1, amended. For every input and in every world, [placeOrder],
    [modifyOrder], [cancelOrder] and [placeSmartOrder] answer
    [success = false] with the non-empty [errorCode] "NOT_SUPPORTED";
    [cancelAllOrders] and [closeAllPositions] answer [success = false] with
    zero counts, no results and no [errorCode]; none of the six invokes the
    bridge (the world, and with it the invocation log, is left unchanged). *)
Theorem write_operations_are_rejected_locally :
  forall (op : AutotradeAdapter.WriteOperation) (w : World),
    exists r,
      AutotradeAdapter.call op w = (Fulfilled r, w) /\
      AutotradeAdapter.result_success r = false /\
      match op with
      | AutotradeAdapter.CancelAllOrders
      | AutotradeAdapter.CloseAllPositions =>
          AutotradeAdapter.result_errorCode r = None /\
          r = AutotradeAdapter.ABulkOperationResult
                (BulkOperationResult.mk false 0%float 0%float 0%float [])
      | _ =>
          AutotradeAdapter.result_errorCode r = Some "NOT_SUPPORTED" /\
          rejected_with_errorCode op w
      end.
Proof.
  intros op w.
  destruct op; (eexists; split; [reflexivity |]; split; [reflexivity |]);
    split; try reflexivity;
    (eexists; eexists; split; [reflexivity |]; split; [reflexivity |]);
    (split; [| reflexivity]); eexists; (split; [reflexivity | discriminate]).
Qed.

(** C2. Whenever the bridge call underlying [getFunds] yields an envelope
    with [success == false] or without [data], [getFunds] rejects, with the
    envelope's [error] (or "Failed to fetch funds"), and returns no [Funds]
    value. *)
Theorem getFunds_rejects_on_failed_envelope :
  forall (w : World) (response : AutotradeApiResponse.t AutotradePortfolioSummary.t),
    next_reply w autotrade_get_account_summary = Resolves response ->
    AutotradeApiResponse.success response = false \/
    AutotradeApiResponse.data response = None ->
    exists w',
      AutotradeAdapter.getFunds w =
        (Rejected
           (or_optional (AutotradeApiResponse.error response)
              "Failed to fetch funds"), w').
Proof.
  unfold next_reply. intros w response Hreply Hfailed. run_adapter.
  rewrite Hreply.
  destruct Hfailed as [Hfailed | Hfailed]; rewrite Hfailed.
  - eexists. reflexivity.
  - destruct (AutotradeApiResponse.success response); eexists; reflexivity.
Qed.

Lemma getFunds_rejects_on_failed_envelope_witness :
  (exists w',
     AutotradeAdapter.getFunds (Scenario.authenticated Scenario.failingBackend) =
       (Rejected "service unavailable", w')) /\
  (exists w',
     AutotradeAdapter.getFunds (Scenario.authenticated Scenario.emptyBackend) =
       (Rejected "Failed to fetch funds", w')).
Proof.
  split.
  - apply (getFunds_rejects_on_failed_envelope
             (Scenario.authenticated Scenario.failingBackend)
             (Scenario.envelope false None (Some "service unavailable"))).
    + reflexivity.
    + left. reflexivity.
  - apply (getFunds_rejects_on_failed_envelope
             (Scenario.authenticated Scenario.emptyBackend)
             (Scenario.envelope true None None)).
    + reflexivity.
    + right. reflexivity.
Defined.

(** C3. [getPositions] never rejects: in every world it is fulfilled with a
    list; and whenever the underlying bridge call fails (the invocation
    rejects, or the envelope has [success == false] or no [data]) that list
    is empty. *)
Theorem getPositions_swallows_failures :
  forall w : World,
    (exists positions w',
       AutotradeAdapter.getPositions w = (Fulfilled positions, w')) /\
    (failed (next_reply w autotrade_get_positions) ->
     exists w', AutotradeAdapter.getPositions w = (Fulfilled [], w')).
Proof.
  intros w.
  destruct (next_reply w autotrade_get_positions) as [response | reason] eqn:Hreply.
  - destruct (getPositions_on_envelope w response Hreply) as (w' & Hrun & _).
    split.
    + eauto.
    + simpl. intros [Hfailed | Hfailed]; rewrite Hfailed in Hrun.
      * eauto.
      * destruct (AutotradeApiResponse.success response); eauto.
  - destruct (getPositions_on_rejection w reason Hreply) as (w' & Hrun & _).
    split; eauto.
Qed.

Lemma getPositions_swallows_failures_witness :
  (exists w',
     AutotradeAdapter.getPositions
       (Scenario.authenticated Scenario.unreachableBackend) = (Fulfilled [], w')) /\
  (exists w',
     AutotradeAdapter.getPositions
       (Scenario.authenticated Scenario.failingBackend) = (Fulfilled [], w')) /\
  (exists w',
     AutotradeAdapter.getPositions
       (Scenario.authenticated Scenario.emptyBackend) = (Fulfilled [], w')).
Proof.
  split; [| split].
  - apply (getPositions_swallows_failures
             (Scenario.authenticated Scenario.unreachableBackend)).
    exact I.
  - apply (getPositions_swallows_failures
             (Scenario.authenticated Scenario.failingBackend)).
    left. reflexivity.
  - apply (getPositions_swallows_failures
             (Scenario.authenticated Scenario.emptyBackend)).
    right. reflexivity.
Defined.

End Adapter.

(* ====================================================================== *)
(** ** The portfolio bridge service *)
(* ====================================================================== *)

Section Service.

Local Open Scope float_scope.

Import NumberFacts.

(** A service whose injected adapter, called in world [w], hands back
    [funds] and then [positions]. *)
Variable this : AutotradePortfolioService.t.
Variable adapter : IStockBrokerAdapter.t.
Variable accountId : string.
Variables w w1 w2 : World.
Variable funds : Funds.t.
Variable positions : list Position.t.

Hypothesis adapter_injected :
  AutotradePortfolioService.brokerAdapter this = Some adapter.
Hypothesis funds_returned :
  IStockBrokerAdapter.getFunds adapter w = (Fulfilled funds, w1).
Hypothesis positions_returned :
  IStockBrokerAdapter.getPositions adapter w1 = (Fulfilled positions, w2).

(** The summary [fetchAutotradePortfolio] synthesizes, field by field. *)
Lemma fetchAutotradePortfolio_fulfilled :
  exists p : AutotradePortfolioSummary.t,
    AutotradePortfolioService.fetchAutotradePortfolio this accountId w =
      (Fulfilled p, w2) /\
    AutotradePortfolioSummary.cash_balance p = Funds.availableCash funds /\
    AutotradePortfolioSummary.total_market_value p =
      AutotradePortfolioService.totalMarketValue positions /\
    AutotradePortfolioSummary.total_cost_basis p =
      AutotradePortfolioService.totalCostBasis positions /\
    AutotradePortfolioSummary.total_unrealized_pnl p =
      AutotradePortfolioService.totalUnrealizedPnl positions /\
    AutotradePortfolioSummary.total_unrealized_pnl_percent p =
      (if gt (AutotradePortfolioService.totalCostBasis positions) 0
       then AutotradePortfolioService.totalUnrealizedPnl positions /
            AutotradePortfolioService.totalCostBasis positions * 100
       else 0) /\
    AutotradePortfolioSummary.net_liquidation_value p =
      AutotradePortfolioService.totalMarketValue positions +
      Funds.availableCash funds /\
    length (AutotradePortfolioSummary.positions p) = length positions /\
    Forall (fun ap => AutotradePosition.weight ap = 0 /\
                      AutotradePosition.day_change_percent ap = 0)
      (AutotradePortfolioSummary.positions p).
Proof.
  unfold AutotradePortfolioService.fetchAutotradePortfolio.
  rewrite adapter_injected. unfold try_catch, await.
  rewrite funds_returned, positions_returned.
  eexists. split; [reflexivity |]. cbn [AutotradePortfolioSummary.cash_balance
    AutotradePortfolioSummary.total_market_value
    AutotradePortfolioSummary.total_cost_basis
    AutotradePortfolioSummary.total_unrealized_pnl
    AutotradePortfolioSummary.total_unrealized_pnl_percent
    AutotradePortfolioSummary.net_liquidation_value
    AutotradePortfolioSummary.positions].
  repeat (split; [reflexivity |]).
  split; [apply length_map |].
  apply Forall_map, Forall_forall. intros p _. split; reflexivity.
Qed.

(** C6. When the summed [total_cost_basis] equals 0, the synthesized
    summary has [total_unrealized_pnl_percent = 0]: the guard
    [totalCostBasis > 0] fails and the quotient is not taken. *)
Theorem zero_cost_basis_gives_zero_percent :
  num_eq (AutotradePortfolioService.totalCostBasis positions) 0 = true ->
  exists p : AutotradePortfolioSummary.t,
    AutotradePortfolioService.fetchAutotradePortfolio this accountId w =
      (Fulfilled p, w2) /\
    AutotradePortfolioSummary.total_cost_basis p =
      AutotradePortfolioService.totalCostBasis positions /\
    AutotradePortfolioSummary.total_unrealized_pnl_percent p = 0.
Proof.
  intros Hzero.
  destruct fetchAutotradePortfolio_fulfilled
    as (p & Hrun & _ & _ & Hcost & _ & Hpercent & _).
  exists p. split; [exact Hrun |]. split; [exact Hcost |].
  rewrite Hpercent, (eq_zero_not_gt _ Hzero). reflexivity.
Qed.

(** C8. With funds [{availableCash: 50000}] and the single position
    [{quantity: 100, averagePrice: 45.5, lastPrice: 46.25, pnl: 75}] the
    synthesized summary has [total_market_value = 4625],
    [total_cost_basis = 4550], [total_unrealized_pnl = 75] and
    [net_liquidation_value = 54625]. *)
Theorem bridge_scenario_totals :
  forall pos : Position.t,
    positions = [pos] ->
    Funds.availableCash funds = 50000 ->
    Position.quantity pos = 100 ->
    Position.averagePrice pos = 45.5 ->
    Position.lastPrice pos = 46.25 ->
    Position.pnl pos = 75 ->
    exists p : AutotradePortfolioSummary.t,
      AutotradePortfolioService.fetchAutotradePortfolio this accountId w =
        (Fulfilled p, w2) /\
      AutotradePortfolioSummary.total_market_value p = 4625 /\
      AutotradePortfolioSummary.total_cost_basis p = 4550 /\
      AutotradePortfolioSummary.total_unrealized_pnl p = 75 /\
      AutotradePortfolioSummary.net_liquidation_value p = 54625.
Proof.
  intros pos Hpositions Hcash Hquantity Haverage Hlast Hpnl.
  destruct fetchAutotradePortfolio_fulfilled
    as (p & Hrun & _ & Hmarket & Hcost & Hunrealized & _ & Hnet & _).
  exists p. split; [exact Hrun |].
  rewrite Hmarket, Hcost, Hunrealized, Hnet, Hpositions, Hcash.
  unfold AutotradePortfolioService.totalMarketValue,
    AutotradePortfolioService.totalCostBasis,
    AutotradePortfolioService.totalUnrealizedPnl.
  cbn [fold_left]. rewrite Hquantity, Haverage, Hlast, Hpnl.
  repeat split; vm_compute; reflexivity.
Qed.

(** What [getPortfolioSummary] answers: one row per position, each with
    [weight = 0] and [day_change_percent = 0]. *)
Lemma getPortfolioSummary_fulfilled :
  exists (summary : PortfolioSummary.t) (w' : World),
    AutotradePortfolioService.getPortfolioSummary this accountId w =
      (Fulfilled summary, w') /\
    length (PortfolioSummary.holdings summary) = length positions /\
    Forall (fun h => HoldingWithQuote.weight h = 0 /\
                     HoldingWithQuote.day_change_percent h = 0)
      (PortfolioSummary.holdings summary).
Proof.
  destruct fetchAutotradePortfolio_fulfilled
    as (p & Hrun & _ & _ & _ & _ & _ & _ & Hlength & Hzero).
  unfold AutotradePortfolioService.getPortfolioSummary.
  rewrite adapter_injected. unfold await. rewrite Hrun.
  eexists. eexists. split; [reflexivity |].
  cbn [PortfolioSummary.holdings FinceptPortfolio.holdings
       Types.transformAutotradePortfolioToFincept].
  split.
  - rewrite !length_map. exact Hlength.
  - rewrite !Forall_map. revert Hzero. apply Forall_impl.
    intros ap [Hweight _]. split; [exact Hweight | reflexivity].
Qed.

End Service.

Section ServiceResults.

Local Open Scope float_scope.

Variable this : AutotradePortfolioService.t.
Variable accountId : string.
Variable w : World.

(** [fetchAutotradePortfolio] is fulfilled only when an adapter is injected
    and both of its calls are fulfilled. *)
Lemma fetchAutotradePortfolio_inversion
  (p : AutotradePortfolioSummary.t) (w' : World) :
  AutotradePortfolioService.fetchAutotradePortfolio this accountId w =
    (Fulfilled p, w') ->
  exists adapter funds positions w1,
    AutotradePortfolioService.brokerAdapter this = Some adapter /\
    IStockBrokerAdapter.getFunds adapter w = (Fulfilled funds, w1) /\
    IStockBrokerAdapter.getPositions adapter w1 = (Fulfilled positions, w').
Proof.
  unfold AutotradePortfolioService.fetchAutotradePortfolio.
  destruct (AutotradePortfolioService.brokerAdapter this) as [adapter|];
    [| discriminate].
  unfold try_catch, await.
  destruct (IStockBrokerAdapter.getFunds adapter w) as [[funds|e] w1] eqn:Hf;
    [| discriminate].
  destruct (IStockBrokerAdapter.getPositions adapter w1)
    as [[positions|e] w2] eqn:Hp; [| discriminate].
  intros H. inversion H; subst w2.
  exists adapter, funds, positions, w1. auto.
Qed.

(** The same for [getPortfolioSummary]. *)
Lemma getPortfolioSummary_inversion
  (summary : PortfolioSummary.t) (w' : World) :
  AutotradePortfolioService.getPortfolioSummary this accountId w =
    (Fulfilled summary, w') ->
  exists p, AutotradePortfolioService.fetchAutotradePortfolio this accountId w =
              (Fulfilled p, w').
Proof.
  unfold AutotradePortfolioService.getPortfolioSummary.
  destruct (AutotradePortfolioService.brokerAdapter this); [| discriminate].
  unfold await.
  destruct (AutotradePortfolioService.fetchAutotradePortfolio this accountId w)
    as [[p|e] w1]; [| discriminate].
  intros H. inversion H; subst. eauto.
Qed.

(** C9. Every summary synthesized by the bridge service satisfies
    [net_liquidation_value = total_market_value + cash_balance] (the same
    binary64 value on both sides); and a summary is synthesized, with the
    adapter's cash as [cash_balance], whenever the adapter returns funds and
    positions. *)
Theorem net_liquidation_is_market_value_plus_cash :
  (forall (p : AutotradePortfolioSummary.t) (w' : World),
     AutotradePortfolioService.fetchAutotradePortfolio this accountId w =
       (Fulfilled p, w') ->
     AutotradePortfolioSummary.net_liquidation_value p =
       AutotradePortfolioSummary.total_market_value p +
       AutotradePortfolioSummary.cash_balance p) /\
  (forall adapter funds positions w1 w2,
     AutotradePortfolioService.brokerAdapter this = Some adapter ->
     IStockBrokerAdapter.getFunds adapter w = (Fulfilled funds, w1) ->
     IStockBrokerAdapter.getPositions adapter w1 = (Fulfilled positions, w2) ->
     exists p,
       AutotradePortfolioService.fetchAutotradePortfolio this accountId w =
         (Fulfilled p, w2) /\
       AutotradePortfolioSummary.cash_balance p = Funds.availableCash funds).
Proof.
  split.
  - intros p w' Hrun.
    destruct (fetchAutotradePortfolio_inversion p w' Hrun)
      as (adapter & funds & positions & w1 & Ha & Hf & Hp).
    destruct (fetchAutotradePortfolio_fulfilled this adapter accountId
                w w1 w' funds positions Ha Hf Hp)
      as (p' & Hrun' & Hcash & Hmarket & _ & _ & _ & Hnet & _).
    rewrite Hrun in Hrun'. inversion Hrun'; subst p'.
    rewrite Hnet, Hmarket, Hcash. reflexivity.
  - intros adapter funds positions w1 w2 Ha Hf Hp.
    destruct (fetchAutotradePortfolio_fulfilled this adapter accountId
                w w1 w2 funds positions Ha Hf Hp) as (p & Hrun & Hcash & _).
    eauto.
Qed.

(** C10. Every holding row returned by [getPortfolioSummary] has
    [weight = 0] and [day_change_percent = 0]; and a summary with one row
    per position is returned whenever the adapter returns funds and
    positions. *)
Theorem holdings_have_zero_weight_and_day_change_percent :
  (forall (summary : PortfolioSummary.t) (w' : World),
     AutotradePortfolioService.getPortfolioSummary this accountId w =
       (Fulfilled summary, w') ->
     Forall (fun h => HoldingWithQuote.weight h = 0 /\
                      HoldingWithQuote.day_change_percent h = 0)
       (PortfolioSummary.holdings summary)) /\
  (forall adapter funds positions w1 w2,
     AutotradePortfolioService.brokerAdapter this = Some adapter ->
     IStockBrokerAdapter.getFunds adapter w = (Fulfilled funds, w1) ->
     IStockBrokerAdapter.getPositions adapter w1 = (Fulfilled positions, w2) ->
     exists summary w',
       AutotradePortfolioService.getPortfolioSummary this accountId w =
         (Fulfilled summary, w') /\
       length (PortfolioSummary.holdings summary) = length positions).
Proof.
  split.
  - intros summary w' Hrun.
    destruct (getPortfolioSummary_inversion summary w' Hrun) as (p & Hfetch).
    destruct (fetchAutotradePortfolio_inversion p w' Hfetch)
      as (adapter & funds & positions & w1 & Ha & Hf & Hp).
    destruct (getPortfolioSummary_fulfilled this adapter accountId
                w w1 w' funds positions Ha Hf Hp)
      as (summary' & w'' & Hrun' & _ & Hzero).
    rewrite Hrun in Hrun'. inversion Hrun'; subst summary'. exact Hzero.
  - intros adapter funds positions w1 w2 Ha Hf Hp.
    destruct (getPortfolioSummary_fulfilled this adapter accountId
                w w1 w2 funds positions Ha Hf Hp)
      as (summary & w' & Hrun & Hlength & _).
    eauto.
Qed.

End ServiceResults.

(* ====================================================================== *)
(** ** The service run against concrete backends *)
(* ====================================================================== *)

Section Runs.

Local Open Scope float_scope.

Lemma zero_cost_basis_gives_zero_percent_witness :
  exists p w',
    AutotradePortfolioService.fetchAutotradePortfolio Scenario.service Scenario.account
      (Scenario.authenticated Scenario.flatBackend) = (Fulfilled p, w') /\
    AutotradePortfolioSummary.total_unrealized_pnl_percent p = 0.
Proof.
  edestruct (zero_cost_basis_gives_zero_percent Scenario.service
               AutotradeAdapter.asBrokerAdapter Scenario.account
               (Scenario.authenticated Scenario.flatBackend))
    as (p & Hrun & _ & Hpercent).
  - reflexivity.
  - reflexivity.
  - reflexivity.
  - reflexivity.
  - exists p. eexists. split; [exact Hrun | exact Hpercent].
Defined.

Lemma bridge_scenario_totals_witness :
  exists p w',
    AutotradePortfolioService.fetchAutotradePortfolio Scenario.service Scenario.account
      (Scenario.authenticated Scenario.sampleBackend) = (Fulfilled p, w') /\
    AutotradePortfolioSummary.total_market_value p = 4625 /\
    AutotradePortfolioSummary.total_cost_basis p = 4550 /\
    AutotradePortfolioSummary.total_unrealized_pnl p = 75 /\
    AutotradePortfolioSummary.net_liquidation_value p = 54625.
Proof.
  edestruct (bridge_scenario_totals Scenario.service
               AutotradeAdapter.asBrokerAdapter Scenario.account
               (Scenario.authenticated Scenario.sampleBackend))
    as (p & Hrun & Htotals).
  - reflexivity.
  - reflexivity.
  - reflexivity.
  - reflexivity.
  - reflexivity.
  - reflexivity.
  - reflexivity.
  - reflexivity.
  - reflexivity.
  - exists p. eexists. split; [exact Hrun | exact Htotals].
Defined.

Lemma net_liquidation_is_market_value_plus_cash_witness :
  exists p w',
    AutotradePortfolioService.fetchAutotradePortfolio Scenario.service Scenario.account
      (Scenario.authenticated Scenario.sampleBackend) = (Fulfilled p, w') /\
    AutotradePortfolioSummary.net_liquidation_value p =
      AutotradePortfolioSummary.total_market_value p +
      AutotradePortfolioSummary.cash_balance p.
Proof.
  eexists. eexists. split.
  - reflexivity.
  - eapply (proj1 (net_liquidation_is_market_value_plus_cash Scenario.service
                     Scenario.account (Scenario.authenticated Scenario.sampleBackend))).
    reflexivity.
Defined.

Lemma holdings_have_zero_weight_and_day_change_percent_witness :
  exists summary w',
    AutotradePortfolioService.getPortfolioSummary Scenario.service Scenario.account
      (Scenario.authenticated Scenario.sampleBackend) = (Fulfilled summary, w') /\
    length (PortfolioSummary.holdings summary) = 1%nat /\
    Forall (fun h => HoldingWithQuote.weight h = 0 /\
                     HoldingWithQuote.day_change_percent h = 0)
      (PortfolioSummary.holdings summary).
Proof.
  eexists. eexists. split; [reflexivity |]. split; [reflexivity |].
  eapply (proj1 (holdings_have_zero_weight_and_day_change_percent
                   Scenario.service Scenario.account
                   (Scenario.authenticated Scenario.sampleBackend))).
  reflexivity.
Defined.

End Runs.

(* ====================================================================== *)
(** ** Sums of absolute values *)
(* ====================================================================== *)

Module SumFacts.

Local Open Scope float_scope.

(** A correctly rounded positive integer significand is never negative. *)
Lemma binary_round_positive (m : positive) (e : Z) :
  SFltb (binary_round prec emax false m e) (S754_zero false) = false.
Proof.
  unfold binary_round, binary_round_aux.
  destruct (shl_align m e _) as [mz ez].
  destruct (shr_fexp prec emax (Z.pos mz) ez loc_Exact) as [mrs' e'].
  destruct (shr_fexp prec emax _ e' loc_Exact) as [mrs'' e''].
  destruct (shr_m mrs'') as [|m'|m']; [reflexivity | | reflexivity].
  destruct (e'' <=? emax - prec)%Z; reflexivity.
Qed.

(** [Math.abs(x) < 0] is false for every number, NaN included. *)
Lemma abs_not_negative (x : number) : lt (Math_abs x) 0 = false.
Proof.
  unfold lt, Math_abs.
  rewrite FloatAxioms.ltb_spec, FloatAxioms.abs_spec.
  destruct (Prim2SF x) as [[|]|[|]| |[|] m e]; reflexivity.
Qed.

(** Adding two numbers that are not negative gives one that is not. *)
Lemma add_not_negative (a b : number) :
  lt a 0 = false -> lt b 0 = false -> lt (a + b) 0 = false.
Proof.
  unfold lt. rewrite !FloatAxioms.ltb_spec, FloatAxioms.add_spec.
  change (Prim2SF 0) with (S754_zero false).
  destruct (Prim2SF a) as [[|]|[|]| |[|] ma ea];
    destruct (Prim2SF b) as [[|]|[|]| |[|] mb eb];
    try discriminate; try reflexivity.
  intros _ _. unfold SF64add, SFadd, binary_normalize. simpl.
  apply binary_round_positive.
Qed.

(** A running sum of non-negative terms, started from a non-negative
    accumulator, is not negative. *)
Lemma fold_not_negative {A : Type} (term : A -> number) (l : list A) :
  (forall x, lt (term x) 0 = false) ->
  forall acc, lt acc 0 = false ->
  lt (fold_left (fun sum x => sum + term x) l acc) 0 = false.
Proof.
  intros Hterm. induction l as [|x l IH]; intros acc Hacc; simpl.
  - exact Hacc.
  - apply IH. apply add_not_negative; [exact Hacc | apply Hterm].
Qed.

End SumFacts.

(* ====================================================================== *)
(** ** The adapter: session, reads and placeholders *)
(* ====================================================================== *)

Section AdapterSession.

Local Open Scope float_scope.

(** What [authenticate] answers and how it leaves the world. *)
Lemma authenticate_run (credentials : BrokerCredentials.t) (w : World) :
  exists r w',
    AutotradeAdapter.authenticate credentials w = (Fulfilled r, w') /\
    AuthResponse.success r = true /\
    AuthResponse.userId r = Some (_accountId w') /\
    AuthResponse.expiresAt r = Some (Date_now (clock w) + 86400000) /\
    _isConnected w' = true /\
    _accountId w' =
      match BrokerCredentials.userId credentials with
      | Some userId => if String.eqb userId "" then _accountId w else userId
      | None => _accountId w
      end /\
    invocations w' = invocations w /\
    console w' = console w.
Proof.
  destruct credentials as [[userId|]]; unfold AutotradeAdapter.authenticate; cbn.
  - destruct (String.eqb userId ""); cbn;
      eexists; eexists; (split; [reflexivity |]); cbn; repeat split.
  - eexists; eexists; (split; [reflexivity |]); cbn; repeat split.
Qed.

(** X1. [authenticate] always reports success and marks the adapter connected
    without contacting the bridge; the stored account id becomes
    [credentials.userId] when that is present and non-empty, and is kept
    otherwise; the response carries the stored id and expires in 24 hours. *)
Theorem authenticate_is_local_and_succeeds :
  forall (credentials : BrokerCredentials.t) (w : World),
    exists r w',
      AutotradeAdapter.authenticate credentials w = (Fulfilled r, w') /\
      AuthResponse.success r = true /\
      AuthResponse.userId r = Some (_accountId w') /\
      AuthResponse.expiresAt r = Some (Date_now (clock w) + 86400000) /\
      _isConnected w' = true /\
      _accountId w' =
        match BrokerCredentials.userId credentials with
        | Some userId => if String.eqb userId "" then _accountId w else userId
        | None => _accountId w
        end /\
      invocations w' = invocations w /\
      console w' = console w.
Proof. exact authenticate_run. Qed.

(** X2. After [authenticate], [refreshSession] succeeds; after a following
    [logout] the account id is cleared and [refreshSession] answers
    [NOT_CONNECTED]. *)
Theorem logout_ends_the_session :
  forall (credentials : BrokerCredentials.t) (w : World),
    (exists r w',
       (AutotradeAdapter.authenticate credentials ;;;
        AutotradeAdapter.refreshSession) w = (Fulfilled r, w') /\
       AuthResponse.success r = true /\
       AuthResponse.accessToken r = Some "autotrade-session-token") /\
    (exists r w',
       (AutotradeAdapter.authenticate credentials ;;;
        AutotradeAdapter.logout ;;;
        AutotradeAdapter.refreshSession) w = (Fulfilled r, w') /\
       AuthResponse.success r = false /\
       AuthResponse.errorCode r = Some "NOT_CONNECTED" /\
       _isConnected w' = false /\
       _accountId w' = "").
Proof.
  intros credentials w.
  destruct (authenticate_run credentials w)
    as (r0 & w0 & Hrun & _ & _ & _ & Hconnected & _).
  split.
  - unfold await at 1. rewrite Hrun.
    unfold AutotradeAdapter.refreshSession, await, this_isConnected.
    rewrite Hconnected. cbn. eexists. eexists. repeat split.
  - unfold await at 1. rewrite Hrun. cbn. eexists. eexists. repeat split.
Qed.

(** X3. The WebSocket placeholders toggle the same connection flag:
    [connectWebSocket] makes [refreshSession] succeed on an adapter that
    never authenticated, and [disconnectWebSocket] makes it fail after
    [authenticate], although the account id is kept. *)
Theorem webSocket_toggles_the_session :
  forall (credentials : BrokerCredentials.t) (WebSocketConfig : Type)
         (config : option WebSocketConfig) (w : World),
    (exists r w',
       (AutotradeAdapter.connectWebSocket config ;;;
        AutotradeAdapter.refreshSession) w = (Fulfilled r, w') /\
       AuthResponse.success r = true /\
       _accountId w' = _accountId w) /\
    (exists r w',
       (AutotradeAdapter.authenticate credentials ;;;
        AutotradeAdapter.disconnectWebSocket ;;;
        AutotradeAdapter.refreshSession) w = (Fulfilled r, w') /\
       AuthResponse.success r = false /\
       AuthResponse.errorCode r = Some "NOT_CONNECTED" /\
       _accountId w' =
         _accountId (snd (AutotradeAdapter.authenticate credentials w))).
Proof.
  intros credentials WebSocketConfig config w. split.
  - cbn. eexists. eexists. repeat split.
  - destruct (authenticate_run credentials w)
      as (r0 & w0 & Hrun & _).
    unfold await at 1. rewrite Hrun. cbn. eexists. eexists. repeat split.
Qed.

End AdapterSession.

Section AdapterReads.

Local Open Scope float_scope.

Import Spec.

Ltac run_read :=
  unfold AutotradeAdapter.getHoldings, AutotradeAdapter.getOpenPosition,
    AutotradeAdapter.getFunds, AutotradeAdapter.getPositions,
    AutotradeAdapter.invokeAutotradeCommand, try_catch, await, invoke,
    this_accountId, console_error, throw, resolve;
  cbn beta iota.

(** The invocation log and the adapter's fields after each read. *)
Lemma read_runs (w : World) :
  (let w' := snd (AutotradeAdapter.getPositions w) in
   invocations w' =
     (invocations w ++ [("autotrade_get_positions", _accountId w)])%list /\
   _isConnected w' = _isConnected w /\ _accountId w' = _accountId w) /\
  (let w' := snd (AutotradeAdapter.getFunds w) in
   invocations w' =
     (invocations w ++ [("autotrade_get_account_summary", _accountId w)])%list /\
   _isConnected w' = _isConnected w /\ _accountId w' = _accountId w).
Proof.
  split; run_read.
  - destruct (backend w _ autotrade_get_positions _ _) as [response | reason].
    + destruct (AutotradeApiResponse.success response),
        (AutotradeApiResponse.data response); cbn; auto.
    + cbn. auto.
  - destruct (backend w _ autotrade_get_account_summary _ _)
      as [response | reason].
    + destruct (AutotradeApiResponse.success response),
        (AutotradeApiResponse.data response); cbn; auto.
    + cbn. auto.
Qed.

(** X4. Each read issues exactly one bridge invocation, of its own command and
    for the stored account id, whatever the reply and whatever the
    connection flag; nothing is retried and the adapter's fields are not
    touched. *)
Theorem reads_invoke_the_bridge_once :
  forall w : World,
    (let w' := snd (AutotradeAdapter.getPositions w) in
     invocations w' =
       (invocations w ++ [("autotrade_get_positions", _accountId w)])%list /\
     _isConnected w' = _isConnected w /\ _accountId w' = _accountId w) /\
    (let w' := snd (AutotradeAdapter.getFunds w) in
     invocations w' =
       (invocations w ++ [("autotrade_get_account_summary", _accountId w)])%list /\
     _isConnected w' = _isConnected w /\ _accountId w' = _accountId w).
Proof. exact read_runs. Qed.

(** X5. The reads are not gated on the session: after [logout] they still call
    the bridge, passing the empty account id. *)
Theorem reads_after_logout_use_empty_account :
  forall w : World,
    invocations (snd ((AutotradeAdapter.logout ;;;
                       AutotradeAdapter.getPositions) w)) =
      (invocations w ++ [("autotrade_get_positions", "")])%list /\
    invocations (snd ((AutotradeAdapter.logout ;;;
                       AutotradeAdapter.getFunds) w)) =
      (invocations w ++ [("autotrade_get_account_summary", "")])%list.
Proof.
  intros w.
  set (w0 := snd (AutotradeAdapter.logout w)).
  assert (Hlogout : AutotradeAdapter.logout w = (Fulfilled tt, w0))
    by reflexivity.
  destruct (read_runs w0) as [(Hp & _) (Hf & _)].
  split; unfold await at 1; rewrite Hlogout.
  - exact Hp.
  - exact Hf.
Qed.

(** X6. On a success envelope that carries data, [getPositions] answers the
    remote positions mapped through [transformPosition], one for one and in
    order, keeping symbol and signed quantity. *)
Theorem getPositions_maps_remote_positions :
  forall (w : World)
         (response : AutotradeApiResponse.t (list AutotradePosition.t))
         (data : list AutotradePosition.t),
    next_reply w autotrade_get_positions = Resolves response ->
    AutotradeApiResponse.success response = true ->
    AutotradeApiResponse.data response = Some data ->
    exists positions w',
      AutotradeAdapter.getPositions w = (Fulfilled positions, w') /\
      positions = map AutotradeAdapter.transformPosition data /\
      length positions = length data /\
      map Position.symbol positions = map AutotradePosition.symbol data /\
      map Position.quantity positions = map AutotradePosition.quantity data /\
      Forall (fun p => Position.overnight p = true) positions.
Proof.
  intros w response data Hreply Hsuccess Hdata.
  destruct (getPositions_on_envelope w response Hreply) as (w' & Hrun & _).
  rewrite Hsuccess, Hdata in Hrun.
  exists (map AutotradeAdapter.transformPosition data), w'.
  split; [exact Hrun |]. split; [reflexivity |].
  split; [apply length_map |].
  rewrite !map_map. split; [reflexivity |]. split; [reflexivity |].
  apply Forall_map, Forall_forall. reflexivity.
Qed.

(** X7. [getFunds] is fulfilled exactly when the bridge answers a success
    envelope that carries a portfolio, and then with that portfolio's cash
    balance and net liquidation value and with zero margins. *)
Theorem getFunds_fulfilled_iff :
  forall (w : World) (funds : Funds.t),
    (exists w', AutotradeAdapter.getFunds w = (Fulfilled funds, w')) <->
    (exists response portfolio,
       next_reply w autotrade_get_account_summary = Resolves response /\
       AutotradeApiResponse.success response = true /\
       AutotradeApiResponse.data response = Some portfolio /\
       funds =
         {| Funds.availableCash :=
              AutotradePortfolioSummary.cash_balance portfolio;
            Funds.usedMargin := 0;
            Funds.availableMargin := 0;
            Funds.totalBalance :=
              AutotradePortfolioSummary.net_liquidation_value portfolio;
            Funds.currency := AutotradePortfolioSummary.currency portfolio |}).
Proof.
  intros w funds. unfold next_reply. run_read.
  destruct (backend w _ autotrade_get_account_summary _ _)
    as [response | reason].
  - destruct (AutotradeApiResponse.success response) eqn:Hsuccess,
      (AutotradeApiResponse.data response) as [portfolio|] eqn:Hdata; cbn.
    + split.
      * intros (w' & H). inversion H. eauto 8.
      * intros (response' & portfolio' & Hr & _ & Hd & Hfunds).
        inversion Hr; subst response'. rewrite Hdata in Hd.
        inversion Hd; subst. eauto.
    + split; [intros (w' & H); discriminate |].
      intros (response' & portfolio' & Hr & _ & Hd & _).
      inversion Hr; subst response'. congruence.
    + split; [intros (w' & H); discriminate |].
      intros (response' & portfolio' & Hr & Hs & _).
      inversion Hr; subst response'. congruence.
    + split; [intros (w' & H); discriminate |].
      intros (response' & portfolio' & Hr & Hs & _).
      inversion Hr; subst response'. congruence.
  - cbn. split; [intros (w' & H); discriminate |].
    intros (response' & portfolio' & Hr & _). discriminate.
Qed.

End AdapterReads.

Section AdapterReadHelpers.

Import Spec.

(** [getPositions] is always fulfilled, with the empty list when the bridge
    call failed. *)
Lemma getPositions_swallows_failures_aux (w : World) :
  exists positions w',
    AutotradeAdapter.getPositions w = (Fulfilled positions, w') /\
    (failed (next_reply w autotrade_get_positions) -> positions = []).
Proof.
  destruct (next_reply w autotrade_get_positions) as [response | reason] eqn:Hreply.
  - destruct (getPositions_on_envelope w response Hreply) as (w' & Hrun & _).
    eexists. exists w'. split; [exact Hrun |].
    simpl. intros [Hfailed | Hfailed]; rewrite Hfailed.
    + reflexivity.
    + destruct (AutotradeApiResponse.success response); reflexivity.
  - destruct (getPositions_on_rejection w reason Hreply) as (w' & Hrun & _).
    eauto.
Qed.

End AdapterReadHelpers.

Section PositionSides.

Local Open Scope float_scope.

Import NumberFacts SumFacts.

(** X8. A transformed position is never long and short at once, and neither
    side is negative: for every input quantity (NaN included) one of
    [buyQuantity], [sellQuantity] is 0 and neither is below 0. The adapter's
    [transformPosition] keeps the same discipline for [buyValue] and
    [sellValue]. *)
Theorem transformed_position_has_one_side :
  forall p : AutotradePosition.t,
    (forall transform,
       transform = Types.transformAutotradePositionToPosition \/
       transform = AutotradeAdapter.transformPosition ->
       (Position.buyQuantity (transform p) = 0 \/
        Position.sellQuantity (transform p) = 0) /\
       lt (Position.buyQuantity (transform p)) 0 = false /\
       lt (Position.sellQuantity (transform p)) 0 = false) /\
    (Position.buyValue (AutotradeAdapter.transformPosition p) = 0 \/
     Position.sellValue (AutotradeAdapter.transformPosition p) = 0).
Proof.
  intros p. set (q := AutotradePosition.quantity p).
  assert (Hsides :
    ((if gt q 0 then q else 0) = 0 \/ (if lt q 0 then Math_abs q else 0) = 0) /\
    lt (if gt q 0 then q else 0) 0 = false /\
    lt (if lt q 0 then Math_abs q else 0) 0 = false).
  { destruct (gt q 0) eqn:Hgt.
    - rewrite (gt_zero_not_lt q Hgt).
      split; [right; reflexivity |]. split; reflexivity.
    - split; [left; reflexivity |]. split; [reflexivity |].
      destruct (lt q 0); [apply abs_not_negative | reflexivity]. }
  split.
  - intros transform [-> | ->]; exact Hsides.
  - unfold AutotradeAdapter.transformPosition.
    cbn [Position.buyValue Position.sellValue]. fold q.
    destruct (gt q 0) eqn:Hgt.
    + rewrite (gt_zero_not_lt q Hgt). auto.
    + auto.
Qed.

Lemma transformed_position_has_one_side_witness :
  Position.buyQuantity
    (AutotradeAdapter.transformPosition Scenario.shortPosition) = 0 /\
  lt (Position.sellQuantity
        (Types.transformAutotradePositionToPosition Scenario.shortPosition)) 0
    = false.
Proof.
  split.
  - destruct (proj1 (transformed_position_has_one_side Scenario.shortPosition)
                AutotradeAdapter.transformPosition (or_intror Logic.eq_refl))
      as ([H | H] & _).
    + exact H.
    + reflexivity.
  - apply (proj1 (transformed_position_has_one_side Scenario.shortPosition)
             Types.transformAutotradePositionToPosition
             (or_introl Logic.eq_refl)).
Defined.

End PositionSides.

Section AdapterHoldings.

Local Open Scope float_scope.

Import Spec SumFacts.

(** X9. The adapter's [getHoldings] never rejects and performs the one bridge
    call of [getPositions]: it answers one row per position, in order, with
    the position's symbol and signed quantity; [investedValue] and
    [currentValue] are absolute values and never negative; when the bridge
    call fails there are no rows. *)
Theorem getHoldings_rows_follow_positions :
  forall w : World,
    exists positions holdings w',
      AutotradeAdapter.getPositions w = (Fulfilled positions, w') /\
      AutotradeAdapter.getHoldings w = (Fulfilled holdings, w') /\
      map Holding.symbol holdings = map Position.symbol positions /\
      map Holding.quantity holdings = map Position.quantity positions /\
      map Holding.investedValue holdings =
        map (fun p => Math_abs (Position.quantity p * Position.averagePrice p))
          positions /\
      Forall (fun h => lt (Holding.investedValue h) 0 = false /\
                       lt (Holding.currentValue h) 0 = false) holdings /\
      (failed (next_reply w autotrade_get_positions) -> holdings = []).
Proof.
  intros w.
  destruct (getPositions_swallows_failures_aux w) as (positions & w' & Hrun & Hfail).
  exists positions. eexists. exists w'.
  split; [exact Hrun |].
  unfold AutotradeAdapter.getHoldings, try_catch, await. rewrite Hrun.
  split; [reflexivity |].
  rewrite !map_map. repeat split.
  - apply Forall_map, Forall_forall. intros p _.
    split; apply abs_not_negative.
  - intros Hfailed. rewrite (Hfail Hfailed). reflexivity.
Qed.

End AdapterHoldings.

Section AdapterLookups.

Local Open Scope float_scope.

(** [find] answers the first element satisfying the test. *)
Lemma find_first_match {A : Type} (test : A -> bool) (l : list A) :
  match find test l with
  | Some x =>
      exists before after,
        l = (before ++ x :: after)%list /\ test x = true /\
        Forall (fun y => test y = false) before
  | None => Forall (fun y => test y = false) l
  end.
Proof.
  induction l as [|y l IH]; simpl.
  - constructor.
  - destruct (test y) eqn:Hy.
    + exists [], l. auto.
    + destruct (find test l) as [x|].
      * destruct IH as (before & after & -> & Hx & Hbefore).
        exists (y :: before), after. auto.
      * constructor; assumption.
Qed.

(** The three-key test of [getOpenPosition], as a proposition. *)
Lemma open_position_test (symbol exchange productType : string) (p : Position.t) :
  (String.eqb (Position.symbol p) symbol &&
   String.eqb (Position.exchange p) exchange &&
   String.eqb (Position.productType p) productType = true) <->
  (Position.symbol p = symbol /\ Position.exchange p = exchange /\
   Position.productType p = productType).
Proof.
  rewrite !andb_true_iff, !String.eqb_eq. tauto.
Qed.

(** X10. [getOpenPosition] answers the first position of [getPositions] whose
    symbol, exchange and product type all equal the arguments, and [null]
    exactly when no position matches (in particular when the bridge call
    failed); it makes the single bridge call of [getPositions]. *)
Theorem getOpenPosition_answers_first_match :
  forall (symbol exchange productType : string) (w : World),
    exists positions w',
      AutotradeAdapter.getPositions w = (Fulfilled positions, w') /\
      ((exists before p after,
          positions = (before ++ p :: after)%list /\
          AutotradeAdapter.getOpenPosition symbol exchange productType w =
            (Fulfilled (Some p), w') /\
          Position.symbol p = symbol /\
          Position.exchange p = exchange /\
          Position.productType p = productType /\
          Forall (fun q => ~ (Position.symbol q = symbol /\
                              Position.exchange q = exchange /\
                              Position.productType q = productType)) before)
       \/
       (AutotradeAdapter.getOpenPosition symbol exchange productType w =
          (Fulfilled None, w') /\
        Forall (fun q => ~ (Position.symbol q = symbol /\
                            Position.exchange q = exchange /\
                            Position.productType q = productType)) positions)).
Proof.
  intros symbol exchange productType w.
  destruct (getPositions_swallows_failures_aux w) as (positions & w' & Hrun & _).
  exists positions, w'. split; [exact Hrun |].
  unfold AutotradeAdapter.getOpenPosition, await. rewrite Hrun. unfold resolve.
  match goal with |- context [find ?t positions] => set (test := t) end.
  assert (Hno : forall l, Forall (fun y => test y = false) l ->
                Forall (fun q => ~ (Position.symbol q = symbol /\
                                    Position.exchange q = exchange /\
                                    Position.productType q = productType)) l).
  { intros l. apply Forall_impl. intros q Hq Hmatch.
    apply (open_position_test symbol exchange productType q) in Hmatch.
    unfold test in Hq. congruence. }
  generalize (find_first_match test positions).
  destruct (find test positions) as [p|].
  - intros (before & after & Hsplit & Hp & Hbefore). left.
    apply (open_position_test symbol exchange productType p) in Hp.
    exists before, p, after. intuition.
  - intros Hnone. right. auto.
Qed.

(** The loop of [getQuotes] appends one placeholder per instrument. *)
Lemma getQuotes_loop_appends (instruments : list InstrumentRef.t) :
  forall (quotes : list Quote.t) (w : World),
    exists added,
      AutotradeAdapter.getQuotes_loop instruments quotes w =
        (Fulfilled (quotes ++ added)%list, w) /\
      map Quote.symbol added = map InstrumentRef.symbol instruments /\
      map Quote.exchange added = map InstrumentRef.exchange instruments /\
      Forall (fun q => Quote.lastPrice q = 0 /\ Quote.bid q = 0 /\
                       Quote.ask q = 0 /\ Quote.volume q = 0 /\
                       Quote.timestamp q = Date_now (clock w)) added.
Proof.
  induction instruments as [|instrument rest IH]; intros quotes w.
  - exists []. rewrite app_nil_r. repeat split. constructor.
  - cbn [AutotradeAdapter.getQuotes_loop].
    unfold await at 1. unfold try_catch at 1. cbn.
    match goal with
    | |- context [AutotradeAdapter.getQuotes_loop rest (quotes ++ [?q])%list w] =>
        destruct (IH (quotes ++ [q])%list w)
          as (added & Hrun & Hsymbols & Hexchanges & Hzero);
        exists (q :: added)
    end.
    rewrite Hrun, <- app_assoc. cbn. rewrite Hsymbols, Hexchanges.
    repeat split. constructor; [repeat split | exact Hzero].
Qed.

(** X11. [getQuotes] answers exactly one quote per requested instrument, in
    order, echoing symbol and exchange; every quote is a placeholder with
    price, bid, ask and volume 0 stamped with the current time, and the
    bridge is never called (the world is left unchanged). *)
Theorem getQuotes_answers_placeholders :
  forall (instruments : list InstrumentRef.t) (w : World),
    exists quotes,
      AutotradeAdapter.getQuotes instruments w = (Fulfilled quotes, w) /\
      length quotes = length instruments /\
      map Quote.symbol quotes = map InstrumentRef.symbol instruments /\
      map Quote.exchange quotes = map InstrumentRef.exchange instruments /\
      Forall (fun q => Quote.lastPrice q = 0 /\ Quote.bid q = 0 /\
                       Quote.ask q = 0 /\ Quote.volume q = 0 /\
                       Quote.timestamp q = Date_now (clock w)) quotes.
Proof.
  intros instruments w.
  destruct (getQuotes_loop_appends instruments [] w)
    as (quotes & Hrun & Hsymbols & Hexchanges & Hzero).
  exists quotes. split; [exact Hrun |].
  split; [| auto].
  rewrite <- (length_map Quote.symbol), Hsymbols. apply length_map.
Qed.

End AdapterLookups.

(* ====================================================================== *)
(** ** The portfolio bridge service: rows, totals and failures *)
(* ====================================================================== *)

Section ServiceRows.

Local Open Scope float_scope.

Import SumFacts.

Variable this : AutotradePortfolioService.t.
Variable adapter : IStockBrokerAdapter.t.
Variable accountId : string.
Variables w w1 w2 : World.
Variable funds : Funds.t.
Variable positions : list Position.t.

Hypothesis adapter_injected :
  AutotradePortfolioService.brokerAdapter this = Some adapter.
Hypothesis funds_returned :
  IStockBrokerAdapter.getFunds adapter w = (Fulfilled funds, w1).
Hypothesis positions_returned :
  IStockBrokerAdapter.getPositions adapter w1 = (Fulfilled positions, w2).

(** What [getPortfolioSummary] answers, row by row and total by total. *)
Lemma getPortfolioSummary_rows_and_totals :
  exists summary : PortfolioSummary.t,
    AutotradePortfolioService.getPortfolioSummary this accountId w =
      (Fulfilled summary, w2) /\
    Forall2
      (fun pos h =>
         HoldingWithQuote.symbol h = Position.symbol pos /\
         HoldingWithQuote.id h =
           Position.symbol pos ++ "." ++ Position.exchange pos /\
         HoldingWithQuote.portfolio_id h =
           AutotradePortfolioService.defaultPortfolioId this /\
         HoldingWithQuote.quantity h = Position.quantity pos /\
         HoldingWithQuote.avg_buy_price h = Position.averagePrice pos /\
         HoldingWithQuote.current_price h = Position.lastPrice pos /\
         HoldingWithQuote.market_value h =
           Math_abs (Position.quantity pos * Position.lastPrice pos) /\
         HoldingWithQuote.cost_basis h =
           Math_abs (Position.quantity pos * Position.averagePrice pos) /\
         HoldingWithQuote.unrealized_pnl h = Position.pnl pos /\
         HoldingWithQuote.day_change h = Position.dayPnl pos)
      positions (PortfolioSummary.holdings summary) /\
    PortfolioSummary.total_market_value summary =
      AutotradePortfolioService.totalMarketValue positions /\
    PortfolioSummary.total_cost_basis summary =
      AutotradePortfolioService.totalCostBasis positions /\
    PortfolioSummary.total_unrealized_pnl summary =
      AutotradePortfolioService.totalUnrealizedPnl positions /\
    PortfolioSummary.total_positions summary = length positions /\
    Portfolio.owner (PortfolioSummary.portfolio summary) = accountId.
Proof.
  unfold AutotradePortfolioService.getPortfolioSummary,
    AutotradePortfolioService.fetchAutotradePortfolio.
  rewrite adapter_injected. unfold try_catch, await.
  rewrite funds_returned, positions_returned.
  eexists. split; [reflexivity |].
  cbn [PortfolioSummary.holdings PortfolioSummary.total_market_value
       PortfolioSummary.total_cost_basis PortfolioSummary.total_unrealized_pnl
       PortfolioSummary.total_positions PortfolioSummary.portfolio
       Portfolio.owner FinceptPortfolio.holdings
       FinceptPortfolio.totalMarketValue FinceptPortfolio.totalCostBasis
       FinceptPortfolio.totalUnrealizedPnl FinceptPortfolio.totalPositions
       Types.transformAutotradePortfolioToFincept
       AutotradePortfolioSummary.positions
       AutotradePortfolioSummary.total_market_value
       AutotradePortfolioSummary.total_cost_basis
       AutotradePortfolioSummary.total_unrealized_pnl
       AutotradePortfolioSummary.total_positions].
  split; [| repeat split].
  clear positions_returned.
  induction positions as [|pos l IH]; cbn [map]; constructor.
  - cbn. repeat split.
  - exact IH.
Qed.

(** Two lists related row by row have the same running sums. *)
Lemma fold_left_sum_rows {A B : Type} (R : A -> B -> Prop)
  (f : A -> number) (g : B -> number) :
  (forall a b, R a b -> g b = f a) ->
  forall l1 l2, Forall2 R l1 l2 ->
  forall acc,
    fold_left (fun sum b => sum + g b) l2 acc =
    fold_left (fun sum a => sum + f a) l1 acc.
Proof.
  intros Hrow l1 l2 Hrows.
  induction Hrows as [|a b l1 l2 Hab _ IH]; intros acc; simpl.
  - reflexivity.
  - rewrite (Hrow a b Hab). apply IH.
Qed.

(** X12. Every holding row of [getPortfolioSummary] is built from the position at
    the same index: it carries the service's portfolio id, the id
    [symbol.exchange], the position's quantity, prices and P&L, and its
    [market_value] and [cost_basis] are the absolute values
    [|quantity * lastPrice|] and [|quantity * averagePrice|]. *)
Theorem summary_rows_follow_positions :
  exists summary : PortfolioSummary.t,
    AutotradePortfolioService.getPortfolioSummary this accountId w =
      (Fulfilled summary, w2) /\
    PortfolioSummary.total_positions summary = length positions /\
    Forall2
      (fun pos h =>
         HoldingWithQuote.symbol h = Position.symbol pos /\
         HoldingWithQuote.id h =
           Position.symbol pos ++ "." ++ Position.exchange pos /\
         HoldingWithQuote.portfolio_id h =
           AutotradePortfolioService.defaultPortfolioId this /\
         HoldingWithQuote.quantity h = Position.quantity pos /\
         HoldingWithQuote.avg_buy_price h = Position.averagePrice pos /\
         HoldingWithQuote.current_price h = Position.lastPrice pos /\
         HoldingWithQuote.market_value h =
           Math_abs (Position.quantity pos * Position.lastPrice pos) /\
         HoldingWithQuote.cost_basis h =
           Math_abs (Position.quantity pos * Position.averagePrice pos) /\
         HoldingWithQuote.unrealized_pnl h = Position.pnl pos /\
         HoldingWithQuote.day_change h = Position.dayPnl pos)
      positions (PortfolioSummary.holdings summary).
Proof.
  destruct getPortfolioSummary_rows_and_totals
    as (summary & Hrun & Hrows & _ & _ & _ & Hcount & _).
  exists summary. auto.
Qed.

(** X13. The totals of a summary agree with its rows: [total_market_value],
    [total_cost_basis] and [total_unrealized_pnl] are the left-to-right sums
    of the rows' [market_value], [cost_basis] and [unrealized_pnl], and
    [total_positions] is the number of rows. *)
Theorem summary_totals_are_sums_of_rows :
  exists summary : PortfolioSummary.t,
    AutotradePortfolioService.getPortfolioSummary this accountId w =
      (Fulfilled summary, w2) /\
    PortfolioSummary.total_market_value summary =
      fold_left (fun sum h => sum + HoldingWithQuote.market_value h)
        (PortfolioSummary.holdings summary) 0 /\
    PortfolioSummary.total_cost_basis summary =
      fold_left (fun sum h => sum + HoldingWithQuote.cost_basis h)
        (PortfolioSummary.holdings summary) 0 /\
    PortfolioSummary.total_unrealized_pnl summary =
      fold_left (fun sum h => sum + HoldingWithQuote.unrealized_pnl h)
        (PortfolioSummary.holdings summary) 0 /\
    PortfolioSummary.total_positions summary =
      length (PortfolioSummary.holdings summary).
Proof.
  destruct getPortfolioSummary_rows_and_totals
    as (summary & Hrun & Hrows & Hmarket & Hcost & Hpnl & Hcount & _).
  exists summary. split; [exact Hrun |].
  rewrite Hmarket, Hcost, Hpnl, Hcount.
  unfold AutotradePortfolioService.totalMarketValue,
    AutotradePortfolioService.totalCostBasis,
    AutotradePortfolioService.totalUnrealizedPnl.
  repeat split.
  - symmetry.
    refine (fold_left_sum_rows _
              (fun p => Math_abs (Position.quantity p * Position.lastPrice p))
              HoldingWithQuote.market_value _ _ _ Hrows _).
    intros pos h Hrow. apply Hrow.
  - symmetry.
    refine (fold_left_sum_rows _
              (fun p => Math_abs (Position.quantity p * Position.averagePrice p))
              HoldingWithQuote.cost_basis _ _ _ Hrows _).
    intros pos h Hrow. apply Hrow.
  - symmetry.
    refine (fold_left_sum_rows _ Position.pnl
              HoldingWithQuote.unrealized_pnl _ _ _ Hrows _).
    intros pos h Hrow. apply Hrow.
  - apply (Forall2_length Hrows).
Qed.

(** X14. [total_market_value] and [total_cost_basis] are never negative, whatever
    the signs of the quantities and prices (short positions count with
    their absolute value). *)
Theorem summary_totals_are_not_negative :
  exists summary : PortfolioSummary.t,
    AutotradePortfolioService.getPortfolioSummary this accountId w =
      (Fulfilled summary, w2) /\
    lt (PortfolioSummary.total_market_value summary) 0 = false /\
    lt (PortfolioSummary.total_cost_basis summary) 0 = false.
Proof.
  destruct getPortfolioSummary_rows_and_totals
    as (summary & Hrun & _ & Hmarket & Hcost & _).
  exists summary. split; [exact Hrun |].
  rewrite Hmarket, Hcost.
  unfold AutotradePortfolioService.totalMarketValue,
    AutotradePortfolioService.totalCostBasis.
  split;
    apply (fold_not_negative
             (fun p => Math_abs (_ p * _ p)));
    try reflexivity; intros p; apply abs_not_negative.
Qed.

End ServiceRows.

Section ServiceFailures.

Local Open Scope float_scope.

Import Spec.

(** X15. Without an injected adapter every read of the service rejects with its
    configuration error and touches nothing: no bridge call, no console
    line. *)
Theorem service_without_adapter_rejects :
  forall (this : AutotradePortfolioService.t) (accountId : string) (w : World),
    AutotradePortfolioService.brokerAdapter this = None ->
    AutotradePortfolioService.getPortfolioSummary this accountId w =
      (Rejected "Broker adapter not set. Call setBrokerAdapter() first.", w) /\
    AutotradePortfolioService.getHoldings this accountId w =
      (Rejected "Broker adapter not set. Call setBrokerAdapter() first.", w) /\
    AutotradePortfolioService.fetchAutotradePortfolio this accountId w =
      (Rejected "Broker adapter not set", w).
Proof.
  intros this accountId w Hnone.
  unfold AutotradePortfolioService.getHoldings, await,
    AutotradePortfolioService.getPortfolioSummary,
    AutotradePortfolioService.fetchAutotradePortfolio.
  rewrite Hnone. repeat split.
Qed.

Lemma service_without_adapter_rejects_witness :
  AutotradePortfolioService.getHoldings AutotradePortfolioService.new
    Scenario.account (Scenario.fresh Scenario.sampleBackend) =
    (Rejected "Broker adapter not set. Call setBrokerAdapter() first.",
     Scenario.fresh Scenario.sampleBackend).
Proof.
  apply (service_without_adapter_rejects AutotradePortfolioService.new
           Scenario.account (Scenario.fresh Scenario.sampleBackend)).
  reflexivity.
Defined.

(** X16. A rejection of the adapter's [getFunds] is passed on unchanged by
    [getPortfolioSummary] and [getHoldings] after one console line, and
    [getPositions] is then never called: the world is the one [getFunds]
    left, plus that line. A rejection of [getPositions] is passed on the
    same way. *)
Theorem service_passes_adapter_rejections_on :
  forall (this : AutotradePortfolioService.t) (adapter : IStockBrokerAdapter.t)
         (accountId error : string) (w w1 : World),
    AutotradePortfolioService.brokerAdapter this = Some adapter ->
    (IStockBrokerAdapter.getFunds adapter w = (Rejected error, w1) \/
     exists funds w0,
       IStockBrokerAdapter.getFunds adapter w = (Fulfilled funds, w0) /\
       IStockBrokerAdapter.getPositions adapter w0 = (Rejected error, w1)) ->
    exists w',
      AutotradePortfolioService.getPortfolioSummary this accountId w =
        (Rejected error, w') /\
      AutotradePortfolioService.getHoldings this accountId w =
        (Rejected error, w') /\
      invocations w' = invocations w1 /\
      console w' =
        (console w1 ++
         [("[AutotradePortfolioService] Failed to fetch portfolio:" ++ " " ++
           error)%string])%list.
Proof.
  intros this adapter accountId error w w1 Hadapter Hrejected.
  unfold AutotradePortfolioService.getHoldings.
  unfold await at 1.
  unfold AutotradePortfolioService.getPortfolioSummary,
    AutotradePortfolioService.fetchAutotradePortfolio.
  rewrite Hadapter. unfold try_catch, await.
  destruct Hrejected as [Hfunds | (funds & w0 & Hfunds & Hpositions)];
    rewrite Hfunds; [| rewrite Hpositions];
    cbn; eexists; repeat split.
Qed.

(** What [getFunds] does to the world on a failed bridge call. *)
Lemma getFunds_failed_run (w : World) :
  failed (next_reply w autotrade_get_account_summary) ->
  exists error w1,
    AutotradeAdapter.getFunds w = (Rejected error, w1) /\
    invocations w1 =
      (invocations w ++ [("autotrade_get_account_summary", _accountId w)])%list.
Proof.
  unfold next_reply, AutotradeAdapter.getFunds,
    AutotradeAdapter.invokeAutotradeCommand, try_catch, await, invoke,
    this_accountId.
  cbn beta iota.
  destruct (backend w _ autotrade_get_account_summary _ _)
    as [response | reason]; cbn.
  - intros [Hfailed | Hfailed]; rewrite Hfailed.
    + eexists. eexists. split; reflexivity.
    + destruct (AutotradeApiResponse.success response);
        eexists; eexists; split; reflexivity.
  - intros _. eexists. eexists. split; reflexivity.
Qed.

(** What [getFunds] does to the world on a success envelope with data. *)
Lemma getFunds_success_run (w : World)
  (response : AutotradeApiResponse.t AutotradePortfolioSummary.t)
  (portfolio : AutotradePortfolioSummary.t) :
  next_reply w autotrade_get_account_summary = Resolves response ->
  AutotradeApiResponse.success response = true ->
  AutotradeApiResponse.data response = Some portfolio ->
  exists funds,
    AutotradeAdapter.getFunds w =
      (Fulfilled funds,
       mkWorld (backend w) (clock w)
         (invocations w ++
          [("autotrade_get_account_summary", _accountId w)])%list
         (console w) (_isConnected w) (_accountId w)) /\
    Funds.availableCash funds = AutotradePortfolioSummary.cash_balance portfolio.
Proof.
  unfold next_reply, AutotradeAdapter.getFunds,
    AutotradeAdapter.invokeAutotradeCommand, try_catch, await, invoke,
    this_accountId.
  cbn beta iota. intros Hreply Hsuccess Hdata.
  rewrite Hreply. cbn. rewrite Hsuccess, Hdata.
  eexists. split; reflexivity.
Qed.

(** X17. With the Autotrade adapter injected, a failed account-summary call
    (rejected, [success == false] or no [data]) makes [getPortfolioSummary]
    reject, and the positions command is never invoked: the only bridge
    call made is the account-summary one. *)
Theorem failed_funds_fail_the_summary :
  forall (this : AutotradePortfolioService.t) (accountId : string) (w : World),
    AutotradePortfolioService.brokerAdapter this =
      Some AutotradeAdapter.asBrokerAdapter ->
    failed (next_reply w autotrade_get_account_summary) ->
    exists error w',
      AutotradePortfolioService.getPortfolioSummary this accountId w =
        (Rejected error, w') /\
      invocations w' =
        (invocations w ++
         [("autotrade_get_account_summary", _accountId w)])%list.
Proof.
  intros this accountId w Hadapter Hfailed.
  destruct (getFunds_failed_run w Hfailed) as (error & w1 & Hfunds & Hlog).
  unfold AutotradePortfolioService.getPortfolioSummary,
    AutotradePortfolioService.fetchAutotradePortfolio.
  rewrite Hadapter. unfold try_catch, await.
  cbn [IStockBrokerAdapter.getFunds AutotradeAdapter.asBrokerAdapter].
  rewrite Hfunds. cbn. eexists. eexists. split; [reflexivity |].
  cbn. exact Hlog.
Qed.

(** X18. With the Autotrade adapter injected, when the account summary arrives
    but the positions call fails, the service still answers: an empty
    portfolio with no rows, zero totals, a zero P&L percent, and
    [net_liquidation_value = 0 + cash_balance]. *)
Theorem failed_positions_give_an_empty_portfolio :
  forall (this : AutotradePortfolioService.t) (accountId : string) (w : World)
         (response : AutotradeApiResponse.t AutotradePortfolioSummary.t)
         (remote : AutotradePortfolioSummary.t),
    AutotradePortfolioService.brokerAdapter this =
      Some AutotradeAdapter.asBrokerAdapter ->
    next_reply w autotrade_get_account_summary = Resolves response ->
    AutotradeApiResponse.success response = true ->
    AutotradeApiResponse.data response = Some remote ->
    failed (backend w _ autotrade_get_positions (_accountId w)
              (S (invokeCount w))) ->
    (exists p w',
       AutotradePortfolioService.fetchAutotradePortfolio this accountId w =
         (Fulfilled p, w') /\
       AutotradePortfolioSummary.positions p = [] /\
       AutotradePortfolioSummary.total_positions p = 0%nat /\
       AutotradePortfolioSummary.total_market_value p = 0 /\
       AutotradePortfolioSummary.total_cost_basis p = 0 /\
       AutotradePortfolioSummary.total_unrealized_pnl p = 0 /\
       AutotradePortfolioSummary.total_unrealized_pnl_percent p = 0 /\
       AutotradePortfolioSummary.cash_balance p =
         AutotradePortfolioSummary.cash_balance remote /\
       AutotradePortfolioSummary.net_liquidation_value p =
         0 + AutotradePortfolioSummary.cash_balance remote) /\
    (exists summary w',
       AutotradePortfolioService.getPortfolioSummary this accountId w =
         (Fulfilled summary, w') /\
       PortfolioSummary.holdings summary = [] /\
       PortfolioSummary.total_positions summary = 0%nat /\
       PortfolioSummary.total_market_value summary = 0).
Proof.
  intros this accountId w response remote Hadapter Hreply Hsuccess Hdata Hfailed.
  destruct (getFunds_success_run w response remote Hreply Hsuccess Hdata)
    as (funds & Hfunds & Hcash).
  match type of Hfunds with _ = (_, ?world) => set (w1 := world) in * end.
  assert (Hfailed1 : failed (next_reply w1 autotrade_get_positions)).
  { unfold next_reply, w1, invokeCount. cbn.
    rewrite length_app, Nat.add_comm. exact Hfailed. }
  destruct (getPositions_swallows_failures_aux w1)
    as (positions & w2 & Hpositions & Hempty).
  rewrite (Hempty Hfailed1) in Hpositions.
  assert (Hfetch : exists p,
    AutotradePortfolioService.fetchAutotradePortfolio this accountId w =
      (Fulfilled p, w2) /\
    AutotradePortfolioSummary.positions p = [] /\
    AutotradePortfolioSummary.total_positions p = 0%nat /\
    AutotradePortfolioSummary.total_market_value p = 0 /\
    AutotradePortfolioSummary.total_cost_basis p = 0 /\
    AutotradePortfolioSummary.total_unrealized_pnl p = 0 /\
    AutotradePortfolioSummary.total_unrealized_pnl_percent p = 0 /\
    AutotradePortfolioSummary.cash_balance p =
      AutotradePortfolioSummary.cash_balance remote /\
    AutotradePortfolioSummary.net_liquidation_value p =
      0 + AutotradePortfolioSummary.cash_balance remote).
  { unfold AutotradePortfolioService.fetchAutotradePortfolio.
    rewrite Hadapter. unfold try_catch, await.
    cbn [IStockBrokerAdapter.getFunds IStockBrokerAdapter.getPositions
         AutotradeAdapter.asBrokerAdapter].
    rewrite Hfunds, Hpositions. eexists. split; [reflexivity |].
    cbn. rewrite Hcash. repeat split. }
  destruct Hfetch as (p & Hrun & Hfacts). split.
  - exists p, w2. split; [exact Hrun | exact Hfacts].
  - unfold AutotradePortfolioService.getPortfolioSummary.
    rewrite Hadapter. unfold await at 1. rewrite Hrun.
    destruct Hfacts as (Hp & Hn & Hm & _).
    cbn. rewrite Hp, Hn, Hm. eexists. eexists. repeat split.
Qed.

End ServiceFailures.

Section ServiceRoundTrip.

Local Open Scope float_scope.

Variable this : AutotradePortfolioService.t.
Variable adapter : IStockBrokerAdapter.t.
Variable accountId : string.
Variables w w1 w2 : World.
Variable funds : Funds.t.
Variable positions : list Position.t.

Hypothesis adapter_injected :
  AutotradePortfolioService.brokerAdapter this = Some adapter.
Hypothesis funds_returned :
  IStockBrokerAdapter.getFunds adapter w = (Fulfilled funds, w1).
Hypothesis positions_returned :
  IStockBrokerAdapter.getPositions adapter w1 = (Fulfilled positions, w2).

(** [s || 'CASH'] applied twice is [s || 'CASH']. *)
Lemma or_string_idempotent (s d : string) :
  d <> "" -> or_string (or_string s d) d = or_string s d.
Proof.
  intros Hd. unfold or_string.
  destruct (String.eqb s "") eqn:Hs.
  - destruct (String.eqb_spec d ""); [contradiction | reflexivity].
  - rewrite Hs. reflexivity.
Qed.

(** X19. Round trip through the synthesized summary: when the adapter's
    positions are the ones [transformPosition] produces, transforming the
    summary's positions back with [transformAutotradePositionToPosition]
    yields exactly the positions the adapter returned. *)
Theorem summary_positions_transform_back :
  forall remote : list AutotradePosition.t,
    positions = map AutotradeAdapter.transformPosition remote ->
    exists p : AutotradePortfolioSummary.t,
      AutotradePortfolioService.fetchAutotradePortfolio this accountId w =
        (Fulfilled p, w2) /\
      map Types.transformAutotradePositionToPosition
        (AutotradePortfolioSummary.positions p) = positions.
Proof.
  intros remote Hremote.
  unfold AutotradePortfolioService.fetchAutotradePortfolio.
  rewrite adapter_injected. unfold try_catch, await.
  rewrite funds_returned, positions_returned.
  eexists. split; [reflexivity |].
  cbn [AutotradePortfolioSummary.positions].
  rewrite Hremote, !map_map. apply map_ext. intros ap.
  unfold Types.transformAutotradePositionToPosition,
    AutotradeAdapter.transformPosition.
  cbn. rewrite or_string_idempotent by discriminate. reflexivity.
Qed.

End ServiceRoundTrip.

(* ====================================================================== *)
(** ** The adapter and the service run against further backends *)
(* ====================================================================== *)

Section FurtherRuns.

Local Open Scope float_scope.

Lemma getPositions_maps_remote_positions_witness :
  exists positions w',
    AutotradeAdapter.getPositions (Scenario.authenticated Scenario.mixedBackend) =
      (Fulfilled positions, w') /\
    length positions = 2%nat /\
    map Position.quantity positions = [100; -100].
Proof.
  edestruct (getPositions_maps_remote_positions
               (Scenario.authenticated Scenario.mixedBackend))
    as (positions & w' & Hrun & _ & Hlength & _ & Hquantity & _).
  - reflexivity.
  - reflexivity.
  - reflexivity.
  - exists positions, w'. split; [exact Hrun |].
    split; [exact Hlength | exact Hquantity].
Defined.

Lemma getFunds_fulfilled_iff_witness :
  exists w',
    AutotradeAdapter.getFunds (Scenario.authenticated Scenario.sampleBackend) =
      (Fulfilled (Funds.mk 50000 0 0 250500 "USD"), w').
Proof.
  apply (proj2 (getFunds_fulfilled_iff
                  (Scenario.authenticated Scenario.sampleBackend)
                  (Funds.mk 50000 0 0 250500 "USD"))).
  eexists. eexists. split; [reflexivity |]. split; [reflexivity |].
  split; reflexivity.
Defined.

Lemma getHoldings_rows_follow_positions_witness :
  exists w',
    AutotradeAdapter.getHoldings
      (Scenario.authenticated Scenario.unreachableBackend) = (Fulfilled [], w').
Proof.
  destruct (getHoldings_rows_follow_positions
              (Scenario.authenticated Scenario.unreachableBackend))
    as (positions & holdings & w' & _ & Hrun & _ & _ & _ & _ & Hempty).
  exists w'. rewrite <- (Hempty I). exact Hrun.
Defined.

Lemma summary_rows_follow_positions_witness :
  exists summary w',
    AutotradePortfolioService.getPortfolioSummary Scenario.service
      Scenario.account (Scenario.authenticated Scenario.mixedBackend) =
      (Fulfilled summary, w') /\
    PortfolioSummary.total_positions summary = 2%nat /\
    length (PortfolioSummary.holdings summary) = 2%nat.
Proof.
  edestruct (summary_rows_follow_positions Scenario.service
               AutotradeAdapter.asBrokerAdapter Scenario.account
               (Scenario.authenticated Scenario.mixedBackend))
    as (summary & Hrun & Hcount & Hrows).
  - reflexivity.
  - reflexivity.
  - reflexivity.
  - exists summary. eexists. split; [exact Hrun |].
    split; [exact Hcount |].
    rewrite <- (Forall2_length Hrows). reflexivity.
Defined.

Lemma summary_totals_are_sums_of_rows_witness :
  exists summary w',
    AutotradePortfolioService.getPortfolioSummary Scenario.service
      Scenario.account (Scenario.authenticated Scenario.mixedBackend) =
      (Fulfilled summary, w') /\
    PortfolioSummary.total_market_value summary =
      fold_left (fun sum h => sum + HoldingWithQuote.market_value h)
        (PortfolioSummary.holdings summary) 0.
Proof.
  edestruct (summary_totals_are_sums_of_rows Scenario.service
               AutotradeAdapter.asBrokerAdapter Scenario.account
               (Scenario.authenticated Scenario.mixedBackend))
    as (summary & Hrun & Hmarket & _).
  - reflexivity.
  - reflexivity.
  - reflexivity.
  - exists summary. eexists. split; [exact Hrun | exact Hmarket].
Defined.

Lemma summary_totals_are_not_negative_witness :
  exists summary w',
    AutotradePortfolioService.getPortfolioSummary Scenario.service
      Scenario.account (Scenario.authenticated Scenario.mixedBackend) =
      (Fulfilled summary, w') /\
    lt (PortfolioSummary.total_market_value summary) 0 = false /\
    lt (PortfolioSummary.total_cost_basis summary) 0 = false.
Proof.
  edestruct (summary_totals_are_not_negative Scenario.service
               AutotradeAdapter.asBrokerAdapter Scenario.account
               (Scenario.authenticated Scenario.mixedBackend))
    as (summary & Hrun & Hfacts).
  - reflexivity.
  - reflexivity.
  - reflexivity.
  - exists summary. eexists. split; [exact Hrun | exact Hfacts].
Defined.

Lemma service_passes_adapter_rejections_on_witness :
  exists w',
    AutotradePortfolioService.getHoldings Scenario.service Scenario.account
      (Scenario.authenticated Scenario.failingBackend) =
      (Rejected "service unavailable", w').
Proof.
  edestruct (service_passes_adapter_rejections_on Scenario.service
               AutotradeAdapter.asBrokerAdapter Scenario.account
               "service unavailable"
               (Scenario.authenticated Scenario.failingBackend))
    as (w' & _ & Hrun & _).
  - reflexivity.
  - left. reflexivity.
  - exists w'. exact Hrun.
Defined.

Lemma failed_funds_fail_the_summary_witness :
  exists error w',
    AutotradePortfolioService.getPortfolioSummary Scenario.service
      Scenario.account (Scenario.authenticated Scenario.unreachableBackend) =
      (Rejected error, w') /\
    invocations w' = [("autotrade_get_account_summary", Scenario.account)].
Proof.
  apply (failed_funds_fail_the_summary Scenario.service Scenario.account
           (Scenario.authenticated Scenario.unreachableBackend)).
  - reflexivity.
  - exact I.
Defined.

Lemma failed_positions_give_an_empty_portfolio_witness :
  exists summary w',
    AutotradePortfolioService.getPortfolioSummary Scenario.service
      Scenario.account (Scenario.authenticated Scenario.noPositionsBackend) =
      (Fulfilled summary, w') /\
    PortfolioSummary.holdings summary = [] /\
    PortfolioSummary.total_positions summary = 0%nat /\
    PortfolioSummary.total_market_value summary = 0.
Proof.
  eapply (failed_positions_give_an_empty_portfolio Scenario.service
            Scenario.account
            (Scenario.authenticated Scenario.noPositionsBackend)).
  - reflexivity.
  - reflexivity.
  - reflexivity.
  - reflexivity.
  - exact I.
Defined.

Lemma summary_positions_transform_back_witness :
  exists p w',
    AutotradePortfolioService.fetchAutotradePortfolio Scenario.service
      Scenario.account (Scenario.authenticated Scenario.mixedBackend) =
      (Fulfilled p, w') /\
    map Types.transformAutotradePositionToPosition
      (AutotradePortfolioSummary.positions p) =
    map AutotradeAdapter.transformPosition
      [Types.sampleAutotradePosition; Scenario.shortPosition].
Proof.
  edestruct (summary_positions_transform_back Scenario.service
               AutotradeAdapter.asBrokerAdapter Scenario.account
               (Scenario.authenticated Scenario.mixedBackend))
    as (p & Hrun & Hback).
  - reflexivity.
  - reflexivity.
  - reflexivity.
  - reflexivity.
  - exists p. eexists. split; [exact Hrun | exact Hback].
Defined.

End FurtherRuns.

Section ServiceBridgeCalls.

Import Spec.

(** X20. With the Autotrade adapter injected and an account summary that
    arrives, [getPortfolioSummary] is fulfilled after exactly two bridge
    invocations, in this order and both for the stored account id: the
    account summary, then the positions (whatever the positions reply). *)
Theorem summary_costs_two_bridge_calls :
  forall (this : AutotradePortfolioService.t) (accountId : string) (w : World)
         (response : AutotradeApiResponse.t AutotradePortfolioSummary.t)
         (remote : AutotradePortfolioSummary.t),
    AutotradePortfolioService.brokerAdapter this =
      Some AutotradeAdapter.asBrokerAdapter ->
    next_reply w autotrade_get_account_summary = Resolves response ->
    AutotradeApiResponse.success response = true ->
    AutotradeApiResponse.data response = Some remote ->
    exists summary w',
      AutotradePortfolioService.getPortfolioSummary this accountId w =
        (Fulfilled summary, w') /\
      invocations w' =
        (invocations w ++
         [("autotrade_get_account_summary", _accountId w);
          ("autotrade_get_positions", _accountId w)])%list.
Proof.
  intros this accountId w response remote Hadapter Hreply Hsuccess Hdata.
  destruct (getFunds_success_run w response remote Hreply Hsuccess Hdata)
    as (funds & Hfunds & _).
  match type of Hfunds with _ = (_, ?world) => set (w1 := world) in * end.
  destruct (getPositions_swallows_failures_aux w1)
    as (positions & w2 & Hpositions & _).
  destruct (getPortfolioSummary_rows_and_totals this
              AutotradeAdapter.asBrokerAdapter accountId w w1 w2 funds positions
              Hadapter Hfunds Hpositions) as (summary & Hrun & _).
  exists summary, w2. split; [exact Hrun |].
  destruct (read_runs w1) as [(Hlog & _) _].
  rewrite Hpositions in Hlog. cbn in Hlog. rewrite Hlog.
  rewrite <- app_assoc. reflexivity.
Qed.

Lemma summary_costs_two_bridge_calls_witness :
  exists summary w',
    AutotradePortfolioService.getPortfolioSummary Scenario.service
      Scenario.account (Scenario.authenticated Scenario.noPositionsBackend) =
      (Fulfilled summary, w') /\
    invocations w' =
      [("autotrade_get_account_summary", Scenario.account);
       ("autotrade_get_positions", Scenario.account)].
Proof.
  eapply (summary_costs_two_bridge_calls Scenario.service Scenario.account
            (Scenario.authenticated Scenario.noPositionsBackend)).
  - reflexivity.
  - reflexivity.
  - reflexivity.
  - reflexivity.
Defined.

End ServiceBridgeCalls.
